(** * Clone and instant-clone workflow of the vSphere provider

    A shallow embedding of
    [vsphere/internal/vmworkflow/virtual_machine_clone_subresource.go]:
    the clone validator ([ValidateVirtualMachineClone],
    [validateCloneSnapshots]) and the two spec builders
    ([ExpandVirtualMachineCloneSpec],
    [ExpandVirtualMachineInstantCloneSpec]), followed by the properties
    the design document states about them. *)

From Stdlib Require Import ZArith.
From stdpp Require Import base option list strings gmap fin_maps.

Set Warnings "-register-all".

(** ** The vim25 data the workflow reads and writes *)

(** [types.ManagedObjectReference]: the kind of a managed object and its
    identifier.  The workflow only ever compares the identifier. *)
Record ManagedObjectReference := MoRef {
  Type' : string;
  Value : string
}.

(** A node of the snapshot tree, [types.VirtualMachineSnapshotTree]:
    the reference of the snapshot and the snapshots taken on top of it. *)
Inductive VirtualMachineSnapshotTree := SnapshotTree {
  Snapshot : ManagedObjectReference;
  ChildSnapshotList : list VirtualMachineSnapshotTree
}.

(** [types.VirtualMachineSnapshotInfo].  [CurrentSnapshot] is a pointer
    (line 212 assigns it to the optional [spec.Snapshot]) and can be nil:
    a tree can be without a current snapshot. *)
Record VirtualMachineSnapshotInfo := SnapshotInfo {
  CurrentSnapshot : option ManagedObjectReference;
  RootSnapshotList : list VirtualMachineSnapshotTree
}.

Record SharesInfo := {
  Shares : Z;
  Level : string
}.

(** [Limit] and [Reservation] are [*int64] in the bindings. *)
Record VirtualEthernetCardResourceAllocation := {
  Reservation : option Z;
  Share : SharesInfo;
  Limit : option Z
}.

(** The part of [types.VirtualEthernetCard] the workflow touches.
    [Backing] is the backing descriptor of the adapter and
    [ResourceAllocation] a pointer, nil on an adapter that reports no
    allocation. *)
Record VirtualEthernetCard := {
  Key : Z;
  Backing : option string;
  AddressType : string;
  MacAddress : string;
  ResourceAllocation : option VirtualEthernetCardResourceAllocation
}.

(** [types.BaseVirtualDevice]: the hardware list is heterogeneous.  A
    device either implements [types.BaseVirtualEthernetCard] (one of the
    adapter models, named by [model]) or it does not (disks, controllers
    and the rest, named by [kind]). *)
Inductive BaseVirtualDevice :=
  | EthernetDevice (model : string) (card : VirtualEthernetCard)
  | OtherDevice (kind : string) (key : Z).

(** [object.VirtualDeviceList] holds pointers to the devices; a pointer is
    a position in the store of devices. *)
Abbreviation ptr := nat.

Record VirtualMachineConfigInfo := {
  Uuid : string;
  GuestId : string;
  Device : list BaseVirtualDevice;        (* Hardware.Device *)
  VAppConfig : option (list string)       (* OvfEnvironmentTransport *)
}.

(** [mo.VirtualMachine].  Both fields are pointers: [Snapshot] is nil
    for a machine without snapshots (line 155 tests it), and [Config] is
    nil when the property fetch comes back without a configuration (the
    data source tests it, the workflow of this file does not). *)
Module mo.
Record VirtualMachine := {
  Config : option VirtualMachineConfigInfo;
  Snapshot : option VirtualMachineSnapshotInfo
}.
End mo.

(** ** Errors *)

(** The errors of this file, one constructor per [fmt.Errorf] with the
    values its format string receives; [cause] is the message of the
    wrapped error.  [Propagated] is an error of a collaborator returned
    unchanged.  [Panic] is no error the code returns: the call ends in a
    run-time panic (a nil pointer dereference, an index out of range, a
    failed type assertion) and hands nothing to its caller. *)
Inductive error :=
  | ErrLocateVM (tUUID cause : string)
      (* cannot locate virtual machine or template with UUID %q: %s *)
  | ErrFetchProperties (cause : string)
      (* error fetching virtual machine or template properties: %s *)
  | ErrInvalidGuestID (aGuestID eGuestID : string)
      (* invalid guest ID %q for clone. Please set it to %q *)
  | ErrNoSnapshot (uuid : string)
      (* ... %s must have a snapshot to be used as a linked clone *)
  | ErrRootSnapshotCount (uuid : string) (has : nat)
      (* ... %s must have exactly one root snapshot (has: %d) *)
  | ErrRootHasChildren (uuid : string)
      (* ... %s's root snapshot must not have children *)
  | ErrCurrentSnapshotMismatch (uuid : string)
      (* ... %s's current snapshot must match root snapshot *)
  | ErrLocateDatastore (cause : string)
      (* error locating datastore for VM: %s *)
  | ErrResourcePool (poolID cause : string)
      (* could not find resource pool ID %q: %s *)
  | ErrOSFamily (guestID cause : string)
      (* cannot find OS family for guest ID %q: %s *)
  | ErrLocateHost (hsID cause : string)
      (* error locating host system at ID %q: %s *)
  | ErrHostNotInPool (host pool : string)
      (* host ID %q is not a member of resource pool %q *)
  | Propagated (cause : string)
  | Panic (msg : string).

(** What a collaborator returns: a value, or the message of its error. *)
Inductive result (A : Type) :=
  | Ok (a : A)
  | Err (cause : string).
Arguments Ok {A} a.
Arguments Err {A} cause.

(** ** Snapshot eligibility *)

(** [props.Config.Uuid] among the arguments of an error: the error with
    the UUID of the source, or a panic on a nil [Config]. *)
Definition withUuid (props : mo.VirtualMachine) (mk : string → error) : option error :=
  match mo.Config props with
  | Some config => Some (mk (Uuid config))
  | None => Some (Panic "nil pointer dereference")
  end.

(** [validateCloneSnapshots], lines 154-171.  A Go [error] is an
    [option error], [None] being nil. *)
Definition validateCloneSnapshots (props : mo.VirtualMachine) : option error :=
  match mo.Snapshot props with
  | None => withUuid props ErrNoSnapshot
  | Some snapshot =>
    if negb (Nat.eqb (length (RootSnapshotList snapshot)) 1) then
      withUuid props
        (λ uuid, ErrRootSnapshotCount uuid (length (RootSnapshotList snapshot)))
    else
      match RootSnapshotList snapshot with
      | [] => Some (Panic "index out of range")
      | root :: _ =>
        if Nat.ltb 0 (length (ChildSnapshotList root)) then
          withUuid props ErrRootHasChildren
        else
          match CurrentSnapshot snapshot with
          | None => Some (Panic "nil pointer dereference")
          | Some current =>
            if negb (String.eqb (Value current) (Value (Snapshot root))) then
              withUuid props ErrCurrentSnapshotMismatch
            else None
          end
      end
  end.

(** The eligibility invariant in the words of the design document:
    exactly one root node, that root node has no children, and the
    current snapshot is the root node's snapshot. *)
Definition linkedCloneEligible (snapshot : VirtualMachineSnapshotInfo) : Prop :=
  length (RootSnapshotList snapshot) = 1 ∧
  ∃ root current,
    head (RootSnapshotList snapshot) = Some root ∧
    ChildSnapshotList root = [] ∧
    CurrentSnapshot snapshot = Some current ∧
    Value current = Value (Snapshot root).

(** ** Handles and clone requests *)

(** [object.Common]: the handle of a resolved managed object (virtual
    machine, datastore, resource pool, host, network, folder). *)
Record Common := {
  Reference : ManagedObjectReference
}.

Record VirtualMachineRelocateSpecDiskLocator := {
  DiskId : Z;
  DiskDatastore : ManagedObjectReference
}.

Inductive VirtualDeviceConfigSpecOperation :=
  | VirtualDeviceConfigSpecOperationAdd
  | VirtualDeviceConfigSpecOperationRemove
  | VirtualDeviceConfigSpecOperationEdit.

(** [Device] is the interface value of the source: a pointer to the
    device, not a copy of it. *)
Record VirtualDeviceConfigSpec := {
  Operation : VirtualDeviceConfigSpecOperation;
  ChangedDevice : ptr                     (* Device *)
}.

(** [types.VirtualMachineRelocateSpec], the [Location] of both requests. *)
Record VirtualMachineRelocateSpec := RelocateSpec {
  Folder : option ManagedObjectReference;
  Datastore : option ManagedObjectReference;
  DiskMoveType : string;
  Pool : option ManagedObjectReference;
  Host : option ManagedObjectReference;
  Disk : list VirtualMachineRelocateSpecDiskLocator;
  DeviceChange : list VirtualDeviceConfigSpec
}.

Module CloneSpec.
Record t := Build {
  Location : VirtualMachineRelocateSpec;
  Snapshot : option ManagedObjectReference
}.
End CloneSpec.

Record OptionValue := {
  OptionKey : string;                     (* Key *)
  OptionVal : string                      (* Value *)
}.

Module InstantCloneSpec.
Record t := Build {
  Name : string;
  Location : VirtualMachineRelocateSpec;
  Config : list OptionValue
}.
End InstantCloneSpec.

(** The zero values [var spec ...] starts from. *)
Definition zeroRelocateSpec : VirtualMachineRelocateSpec :=
  RelocateSpec None None EmptyString None None [] [].
Definition zeroCloneSpec : CloneSpec.t :=
  CloneSpec.Build zeroRelocateSpec None.
Definition zeroInstantCloneSpec : InstantCloneSpec.t :=
  InstantCloneSpec.Build EmptyString zeroRelocateSpec [].

(** Assignments to one field. *)
Definition set_Folder v (r : VirtualMachineRelocateSpec) :=
  let 'RelocateSpec _ ds mv po ho di dc := r in RelocateSpec v ds mv po ho di dc.
Definition set_Datastore v (r : VirtualMachineRelocateSpec) :=
  let 'RelocateSpec fo _ mv po ho di dc := r in RelocateSpec fo v mv po ho di dc.
Definition set_DiskMoveType v (r : VirtualMachineRelocateSpec) :=
  let 'RelocateSpec fo ds _ po ho di dc := r in RelocateSpec fo ds v po ho di dc.
Definition set_Pool v (r : VirtualMachineRelocateSpec) :=
  let 'RelocateSpec fo ds mv _ ho di dc := r in RelocateSpec fo ds mv v ho di dc.
Definition set_Host v (r : VirtualMachineRelocateSpec) :=
  let 'RelocateSpec fo ds mv po _ di dc := r in RelocateSpec fo ds mv po v di dc.
Definition set_Disk v (r : VirtualMachineRelocateSpec) :=
  let 'RelocateSpec fo ds mv po ho _ dc := r in RelocateSpec fo ds mv po ho v dc.
Definition set_DeviceChange v (r : VirtualMachineRelocateSpec) :=
  let 'RelocateSpec fo ds mv po ho di _ := r in RelocateSpec fo ds mv po ho di v.

Module CloneSpecUpd.
Definition Location (f : VirtualMachineRelocateSpec → VirtualMachineRelocateSpec)
    (s : CloneSpec.t) : CloneSpec.t :=
  CloneSpec.Build (f (CloneSpec.Location s)) (CloneSpec.Snapshot s).
Definition Snapshot v (s : CloneSpec.t) : CloneSpec.t :=
  CloneSpec.Build (CloneSpec.Location s) v.
End CloneSpecUpd.

Module InstantCloneSpecUpd.
Definition Name v (s : InstantCloneSpec.t) : InstantCloneSpec.t :=
  InstantCloneSpec.Build v (InstantCloneSpec.Location s) (InstantCloneSpec.Config s).
Definition Location (f : VirtualMachineRelocateSpec → VirtualMachineRelocateSpec)
    (s : InstantCloneSpec.t) : InstantCloneSpec.t :=
  InstantCloneSpec.Build (InstantCloneSpec.Name s)
    (f (InstantCloneSpec.Location s)) (InstantCloneSpec.Config s).
Definition Config v (s : InstantCloneSpec.t) : InstantCloneSpec.t :=
  InstantCloneSpec.Build (InstantCloneSpec.Name s) (InstantCloneSpec.Location s) v.
End InstantCloneSpecUpd.

(** [types.VirtualMachineRelocateDiskMoveOptionsCreateNewChildDiskBacking]
    and [types.VirtualEthernetCardMacTypeManual], [types.SharesLevelCustom]. *)
Definition VirtualMachineRelocateDiskMoveOptionsCreateNewChildDiskBacking : string :=
  "createNewChildDiskBacking".
Definition VirtualEthernetCardMacTypeManual : string := "manual".
Definition SharesLevelCustom : string := "custom".

(** ** The declared configuration *)

(** One [network_interface] block. *)
Record NetworkInterface := {
  network_id : string;
  bandwidth_limit : Z;
  bandwidth_reservation : Z;
  bandwidth_share_level : string;
  bandwidth_share_count : Z;
  use_static_mac : bool;
  mac_address : string
}.

(** The keys of [schema.ResourceDiff] the validator reads, and the one it
    writes ([vapp_transport]).  [template_uuid_known] is
    [NewValueKnown("clone.0.template_uuid")]. *)
Record ResourceDiff := Diff {
  diff_template_uuid : string;            (* clone.0.template_uuid *)
  template_uuid_known : bool;
  diff_linked_clone : bool;               (* clone.0.linked_clone *)
  diff_customize : list string;           (* clone.0.customize *)
  diff_guest_id : string;                 (* guest_id *)
  diff_resource_pool_id : string;         (* resource_pool_id *)
  diff_disk : list string;                (* disk, read by the reconciler *)
  vapp_transport : list string
}.

Definition SetNew_vapp_transport (v : list string) (d : ResourceDiff) : ResourceDiff :=
  let 'Diff u k l cu g p di _ := d in Diff u k l cu g p di v.

(** The keys of [schema.ResourceData] the two builders read. *)
Record ResourceData := Data {
  name : string;
  datastore_id : string;
  resource_pool_id : string;
  host_system_id : string;
  template_uuid : string;                 (* clone.0.template_uuid *)
  linked_clone : bool;                    (* clone.0.linked_clone *)
  source_uuid : string;                   (* instantclone.0.source_uuid *)
  extra_config : gmap string string;
  network_interface : list NetworkInterface;
  disk : list string                      (* disk, read by the reconciler *)
}.

Definition with_linked_clone (b : bool) (d : ResourceData) : ResourceData :=
  let 'Data n ds p h t _ s e ni di := d in Data n ds p h t b s e ni di.

(** [GetOk] of a string key: the value, and whether it is set to
    something other than the zero value. *)
Definition GetOk (v : string) : string * bool := (v, negb (String.eqb v EmptyString)).

(** ** The management plane *)

(** [govmomi.Client] as this file sees it: what the helper packages
    answer over the connection.  None of them is in this file. *)
Record Client := {
  datastore_FromID : string → result Common;
  virtualmachine_FromUUID : string → result Common;
  virtualmachine_Properties : Common → result mo.VirtualMachine;
  resourcepool_FromID : string → result Common;
  resourcepool_OSFamily : Common → string → result string;
  hostsystem_FromID : string → result Common;
  network_FromID : string → result Common;
  EthernetCardBackingInfo : Common → result string;
  (* the hosts of the compute resource that owns a resource pool *)
  computeresource_Hosts : Common → list string
}.

(** Modelled from the spec: [resourcepool.ValidateHost] is not among the
    sources.  With a host, it verifies that the host is a member of the
    resource pool's compute environment and fails otherwise; the builder
    also calls it without a host, where there is nothing to verify. *)
Definition resourcepool_ValidateHost (c : Client) (pool : Common)
    (hs : option Common) : option error :=
  match hs with
  | None => None
  | Some host =>
    if bool_decide (Value (Reference host) ∈ computeresource_Hosts c pool)
    then None
    else Some (ErrHostNotInPool (Value (Reference host)) (Value (Reference pool)))
  end.

(** Go visits the entries of a map in an order the language leaves open
    and the runtime varies from one [range] statement to the next; every
    entry is visited once.  A [MapRange] is the order of one run. *)
Record MapRange := {
  range_of :> gmap string string → list (string * string);
  range_visits : ∀ m, range_of m ≡ₚ map_to_list m
}.

(** [int32(x)] of a Go [int]: the low 32 bits, signed. *)
Definition int32 (x : Z) : Z := ((x + 2 ^ 31) mod 2 ^ 32 - 2 ^ 31)%Z.

(** Assignments to one field of an adapter. *)
Definition set_Backing v (card : VirtualEthernetCard) : VirtualEthernetCard :=
  {| Key := Key card; Backing := v; AddressType := AddressType card;
     MacAddress := MacAddress card; ResourceAllocation := ResourceAllocation card |}.
Definition set_AddressType v (card : VirtualEthernetCard) : VirtualEthernetCard :=
  {| Key := Key card; Backing := Backing card; AddressType := v;
     MacAddress := MacAddress card; ResourceAllocation := ResourceAllocation card |}.
Definition set_MacAddress v (card : VirtualEthernetCard) : VirtualEthernetCard :=
  {| Key := Key card; Backing := Backing card; AddressType := AddressType card;
     MacAddress := v; ResourceAllocation := ResourceAllocation card |}.
Definition set_ResourceAllocation v (card : VirtualEthernetCard) : VirtualEthernetCard :=
  {| Key := Key card; Backing := Backing card; AddressType := AddressType card;
     MacAddress := MacAddress card; ResourceAllocation := v |}.
Definition set_Limit v (ra : VirtualEthernetCardResourceAllocation) :=
  {| Reservation := Reservation ra; Share := Share ra; Limit := v |}.
Definition set_Reservation v (ra : VirtualEthernetCardResourceAllocation) :=
  {| Reservation := v; Share := Share ra; Limit := Limit ra |}.
Definition set_ShareLevel v (ra : VirtualEthernetCardResourceAllocation) :=
  {| Reservation := Reservation ra;
     Share := {| Shares := Shares (Share ra); Level := v |};
     Limit := Limit ra |}.
Definition set_ShareShares v (ra : VirtualEthernetCardResourceAllocation) :=
  {| Reservation := Reservation ra;
     Share := {| Shares := v; Level := Level (Share ra) |};
     Limit := Limit ra |}.

(** The [Select] predicate of lines 299-304: the device implements
    [types.BaseVirtualEthernetCard]. *)
Definition isEthernetCard (device : BaseVirtualDevice) : bool :=
  match device with
  | EthernetDevice _ _ => true
  | OtherDevice _ _ => false
  end.

(** [object.VirtualDeviceList(store)]: the pointers to the devices. *)
Definition VirtualDeviceList (store : list BaseVirtualDevice) : list ptr :=
  seq 0 (length store).

(** [VirtualDeviceList.Select]: the pointers whose device satisfies [f],
    in the order of the list. *)
Definition Select (store : list BaseVirtualDevice) (f : BaseVirtualDevice → bool)
    (l : list ptr) : list ptr :=
  filter (λ p, Is_true (from_option f false (store !! p))) l.

Definition editOf (device : ptr) : VirtualDeviceConfigSpec :=
  {| Operation := VirtualDeviceConfigSpecOperationEdit; ChangedDevice := device |}.

Section Workflow.

(** The collaborators of this repository that are not in this file: the
    device reconciler (package [virtualdevice]) and the customization
    validator.  An error of theirs is its message. *)
Variable DiskCloneValidateOperation :
  ResourceDiff → Client → list BaseVirtualDevice → bool → option string.
Variable DiskCloneRelocateOperation :
  ResourceData → Client → list BaseVirtualDevice →
  result (list VirtualMachineRelocateSpecDiskLocator).
Variable ValidateCustomizationSpec : ResourceDiff → string → option string.

(** ** The clone validator *)

(** [ValidateVirtualMachineClone], lines 84-149.  The diff is written to
    ([SetNew]), so the validator returns it with its verdict.  Line 97 is
    the first to read [vprops.Config]. *)
Definition ValidateVirtualMachineClone (d : ResourceDiff) (c : Client)
    : ResourceDiff * option error :=
  let tUUID := diff_template_uuid d in
  (* lines 129-148 *)
  let customization (d : ResourceDiff) : ResourceDiff * option error :=
    if Nat.ltb 0 (length (diff_customize d)) then
      let '(poolID, ok) := GetOk (diff_resource_pool_id d) in
      if ok then
        match resourcepool_FromID c poolID with
        | Err err => (d, Some (ErrResourcePool poolID err))
        | Ok pool =>
          match resourcepool_OSFamily c pool (diff_guest_id d) with
          | Err err => (d, Some (ErrOSFamily (diff_guest_id d) err))
          | Ok family =>
            match ValidateCustomizationSpec d family with
            | Some err => (d, Some (Propagated err))
            | None => (d, None)
            end
          end
        end
      else (d, None)
    else (d, None) in
  if template_uuid_known d then
    match virtualmachine_FromUUID c tUUID with
    | Err err => (d, Some (ErrLocateVM tUUID err))
    | Ok vm =>
      match virtualmachine_Properties c vm with
      | Err err => (d, Some (ErrFetchProperties err))
      | Ok vprops =>
        match mo.Config vprops with
        | None => (d, Some (Panic "nil pointer dereference"))
        | Some config =>
          let eGuestID := GuestId config in
          let aGuestID := diff_guest_id d in
          if negb (String.eqb eGuestID aGuestID) then
            (d, Some (ErrInvalidGuestID aGuestID eGuestID))
          else
            let linked := diff_linked_clone d in
            match (if linked then validateCloneSnapshots vprops else None) with
            | Some err => (d, Some err)
            | None =>
              let l := Device config in
              match DiskCloneValidateOperation d c l linked with
              | Some err => (d, Some (Propagated err))
              | None =>
                let d :=
                  match VAppConfig config with
                  | Some vconfig => SetNew_vapp_transport vconfig d
                  | None => d
                  end in
                customization d
              end
            end
        end
      end
    end
  else customization d.

(** ** The traditional clone spec builder *)

(** [ExpandVirtualMachineCloneSpec], lines 179-251.  The three results of
    the Go function: the spec as far as it was assembled, the handle of
    the source (nil on the error paths), the error.  Line 214 reads
    [CurrentSnapshot.Value] for the log, line 243 [vprops.Config]. *)
Definition ExpandVirtualMachineCloneSpec (d : ResourceData) (c : Client)
    : CloneSpec.t * option Common * option error :=
  let spec := zeroCloneSpec in
  let '(dsID, ok) := GetOk (datastore_id d) in
  match (if ok then
           match datastore_FromID c dsID with
           | Err err => inl (ErrLocateDatastore err)
           | Ok ds => inr (CloneSpecUpd.Location (set_Datastore (Some (Reference ds))) spec)
           end
         else inr spec) with
  | inl err => (spec, None, Some err)
  | inr spec =>
    let tUUID := template_uuid d in
    match virtualmachine_FromUUID c tUUID with
    | Err err => (spec, None, Some (ErrLocateVM tUUID err))
    | Ok vm =>
      match virtualmachine_Properties c vm with
      | Err err => (spec, None, Some (ErrFetchProperties err))
      | Ok vprops =>
        match (if linked_clone d then
                 match validateCloneSnapshots vprops with
                 | Some err => inl err
                 | None =>
                   match mo.Snapshot vprops with
                   | None => inl (Panic "nil pointer dereference")
                   | Some snapshot =>
                     let spec := CloneSpecUpd.Snapshot (CurrentSnapshot snapshot) spec in
                     let spec :=
                       CloneSpecUpd.Location
                         (set_DiskMoveType
                            VirtualMachineRelocateDiskMoveOptionsCreateNewChildDiskBacking)
                         spec in
                     match CurrentSnapshot snapshot with
                     | None => inl (Panic "nil pointer dereference")
                     | Some _ => inr spec
                     end
                   end
                 end
               else inr spec) with
        | inl err => (spec, None, Some err)
        | inr spec =>
          let poolID := resource_pool_id d in
          match resourcepool_FromID c poolID with
          | Err err => (spec, None, Some (ErrResourcePool poolID err))
          | Ok pool =>
            let '(hsID, ok) := GetOk (host_system_id d) in
            match (if ok then
                     match hostsystem_FromID c hsID with
                     | Err err => inl (ErrLocateHost hsID err)
                     | Ok hs => inr (Some hs)
                     end
                   else inr None) with
            | inl err => (spec, None, Some err)
            | inr hs =>
              match resourcepool_ValidateHost c pool hs with
              | Some err => (spec, None, Some err)
              | None =>
                let spec := CloneSpecUpd.Location (set_Pool (Some (Reference pool))) spec in
                let spec :=
                  match hs with
                  | Some hs => CloneSpecUpd.Location (set_Host (Some (Reference hs))) spec
                  | None => spec
                  end in
                match mo.Config vprops with
                | None => (spec, None, Some (Panic "nil pointer dereference"))
                | Some config =>
                  let l := Device config in
                  match DiskCloneRelocateOperation d c l with
                  | Err err => (spec, None, Some (Propagated err))
                  | Ok relocators =>
                    let spec := CloneSpecUpd.Location (set_Disk relocators) spec in
                    (spec, Some vm, None)
                  end
                end
              end
            end
          end
        end
      end
    end
  end.

(** ** The instant clone spec builder *)

(** The loop of lines 310-358 over the selected adapters, from position
    [index] on.  [store] holds the devices the pointers refer to and is
    written in place; [configSpecs] grows by one edit per paired adapter;
    [spec.Location.DeviceChange] is assigned at the end of every
    iteration.  An error leaves the loop at once.  Line 329 writes the
    backing, line 334 is the first to go through the
    [ResourceAllocation] pointer. *)
Fixpoint rangeDevices (c : Client) (n : list NetworkInterface)
    (devices : list ptr) (index : nat) (store : list BaseVirtualDevice)
    (spec : InstantCloneSpec.t) (configSpecs : list VirtualDeviceConfigSpec)
    : list BaseVirtualDevice * InstantCloneSpec.t * option error :=
  match devices with
  | [] => (store, spec, None)
  | device :: devices =>
    if Nat.ltb index (length n) then
      match n !! index with
      | None => (store, spec, Some (Panic "index out of range"))
      | Some ni =>
        let backingMoid := network_id ni in
        match network_FromID c backingMoid with
        | Err err => (store, spec, Some (Propagated err))
        | Ok net =>
          match EthernetCardBackingInfo c net with
          | Err err => (store, spec, Some (Propagated err))
          | Ok backing =>
            match store !! device with
            | Some (EthernetDevice model virtualEthernetCard) =>
              let card := set_Backing (Some backing) virtualEthernetCard in
              match ResourceAllocation card with
              | None =>
                (<[device := EthernetDevice model card]> store, spec,
                 Some (Panic "nil pointer dereference"))
              | Some allocation =>
                let bandwidthLimit := bandwidth_limit ni in
                let bandwidthReservation := bandwidth_reservation ni in
                let allocation := set_Limit (Some bandwidthLimit) allocation in
                let allocation := set_Reservation (Some bandwidthReservation) allocation in
                let allocation := set_ShareLevel (bandwidth_share_level ni) allocation in
                let allocation :=
                  if String.eqb (Level (Share allocation)) SharesLevelCustom
                  then set_ShareShares (int32 (bandwidth_share_count ni)) allocation
                  else allocation in
                let card := set_ResourceAllocation (Some allocation) card in
                let card :=
                  if use_static_mac ni then
                    set_MacAddress (mac_address ni)
                      (set_AddressType VirtualEthernetCardMacTypeManual card)
                  else
                    set_MacAddress EmptyString (set_AddressType EmptyString card) in
                let store := <[device := EthernetDevice model card]> store in
                let configSpecs := configSpecs ++ [editOf device] in
                let spec :=
                  InstantCloneSpecUpd.Location (set_DeviceChange configSpecs) spec in
                rangeDevices c n devices (S index) store spec configSpecs
              end
            | _ => (store, spec, Some (Panic "interface conversion"))
            end
          end
        end
      end
    else
      let spec := InstantCloneSpecUpd.Location (set_DeviceChange configSpecs) spec in
      rangeDevices c n devices (S index) store spec configSpecs
  end.

(** [ExpandVirtualMachineInstantCloneSpec], lines 258-379.  [order] is
    the order in which this run's [range ec] visits the map.  Beside the
    three results of the Go function, the devices of the fetched source
    properties as the builder leaves them: the device-change instructions
    point into them.  Line 298 is the first to read [vprops.Config]. *)
Definition ExpandVirtualMachineInstantCloneSpec (order : MapRange)
    (d : ResourceData) (c : Client) (fo : Common)
    : InstantCloneSpec.t * option Common * option error * list BaseVirtualDevice :=
  let spec := zeroInstantCloneSpec in
  let '(dsID, ok) := GetOk (datastore_id d) in
  match (if ok then
           match datastore_FromID c dsID with
           | Err err => inl (ErrLocateDatastore err)
           | Ok ds =>
             inr (InstantCloneSpecUpd.Location (set_Datastore (Some (Reference ds))) spec)
           end
         else inr spec) with
  | inl err => (spec, None, Some err, [])
  | inr spec =>
    let spec := InstantCloneSpecUpd.Name (name d) spec in
    let spec := InstantCloneSpecUpd.Location (set_Folder (Some (Reference fo))) spec in
    let ec := extra_config d in
    let spec :=
      foldl (λ spec '(k, v),
               InstantCloneSpecUpd.Config
                 (InstantCloneSpec.Config spec ++ [{| OptionKey := k; OptionVal := v |}])
                 spec)
            spec (order ec) in
    let configSpecs : list VirtualDeviceConfigSpec := [] in
    let srcUUID := source_uuid d in
    match virtualmachine_FromUUID c srcUUID with
    | Err err => (spec, None, Some (ErrLocateVM srcUUID err), [])
    | Ok srcVM =>
      match virtualmachine_Properties c srcVM with
      | Err err => (spec, None, Some (ErrFetchProperties err), [])
      | Ok vprops =>
        match mo.Config vprops with
        | None => (spec, None, Some (Panic "nil pointer dereference"), [])
        | Some config =>
          let store := Device config in
          let devices := VirtualDeviceList store in
          let devices := Select store isEthernetCard devices in
          let n := network_interface d in
          match rangeDevices c n devices 0 store spec configSpecs with
          | (store, spec, Some err) => (spec, None, Some err, store)
          | (store, spec, None) =>
            let poolID := resource_pool_id d in
            match resourcepool_FromID c poolID with
            | Err err => (spec, None, Some (ErrResourcePool poolID err), store)
            | Ok pool =>
              let spec :=
                InstantCloneSpecUpd.Location (set_Pool (Some (Reference pool))) spec in
              let l := store in
              match DiskCloneRelocateOperation d c l with
              | Err err => (spec, None, Some (Propagated err), store)
              | Ok relocators =>
                let spec := InstantCloneSpecUpd.Location (set_Disk relocators) spec in
                (spec, Some srcVM, None, store)
              end
            end
          end
        end
      end
    end
  end.

End Workflow.

(** ** What the design document says of the results *)

(** The errors of the guest-ID check. *)
Definition isInvalidGuestID (err : option error) : Prop :=
  ∃ aGuestID eGuestID, err = Some (ErrInvalidGuestID aGuestID eGuestID).

Definition isPanic (err : error) : Prop := ∃ msg, err = Panic msg.

(** The errors the instant clone builder has: those of its lookups and
    those its collaborators hand back. *)
Definition instantCloneError (err : error) : Prop :=
  match err with
  | ErrLocateDatastore _ | ErrLocateVM _ _ | ErrFetchProperties _
  | ErrResourcePool _ _ | Propagated _ => True
  | _ => False
  end.

(** The datastore of a request: unset without a declared datastore, the
    reference of the resolved datastore otherwise. *)
Definition resolvedDatastore (c : Client) (d : ResourceData)
    (ds : option ManagedObjectReference) : Prop :=
  if String.eqb (datastore_id d) EmptyString then ds = None
  else ∃ h, datastore_FromID c (datastore_id d) = Ok h ∧ ds = Some (Reference h).

(** The host of a traditional clone request: unset without a declared
    host, otherwise the reference of the resolved host, which is one of
    the hosts of the pool's compute resource. *)
Definition resolvedHost (c : Client) (d : ResourceData) (pool : Common)
    (hs : option ManagedObjectReference) : Prop :=
  if String.eqb (host_system_id d) EmptyString then hs = None
  else ∃ h, hostsystem_FromID c (host_system_id d) = Ok h ∧
            hs = Some (Reference h) ∧
            Value (Reference h) ∈ computeresource_Hosts c pool.

(** The two fields of a linked clone: with the flag, the source is
    eligible, the snapshot is its current snapshot and the disks are
    moved to new child backings; without it both are unset. *)
Definition linkedCloneFields (d : ResourceData) (vprops : mo.VirtualMachine)
    (snapshot : option ManagedObjectReference) (diskMoveType : string) : Prop :=
  if linked_clone d then
    ∃ info, mo.Snapshot vprops = Some info ∧ linkedCloneEligible info ∧
            snapshot = CurrentSnapshot info ∧
            diskMoveType = VirtualMachineRelocateDiskMoveOptionsCreateNewChildDiskBacking
  else snapshot = None ∧ diskMoveType = EmptyString.

(** A complete traditional clone spec for [d]: every step of section 4.2
    has succeeded and left its field; the disks are those of the
    configuration of the source. *)
Definition completeCloneSpec
    (DiskCloneRelocateOperation :
       ResourceData → Client → list BaseVirtualDevice →
       result (list VirtualMachineRelocateSpecDiskLocator))
    (d : ResourceData) (c : Client) (spec : CloneSpec.t) (vm : Common) : Prop :=
  ∃ ds snapshot diskMoveType vprops config pool hs relocators,
    spec = CloneSpec.Build
             (RelocateSpec None ds diskMoveType (Some (Reference pool)) hs relocators [])
             snapshot ∧
    resolvedDatastore c d ds ∧
    virtualmachine_FromUUID c (template_uuid d) = Ok vm ∧
    virtualmachine_Properties c vm = Ok vprops ∧
    linkedCloneFields d vprops snapshot diskMoveType ∧
    resourcepool_FromID c (resource_pool_id d) = Ok pool ∧
    resolvedHost c d pool hs ∧
    mo.Config vprops = Some config ∧
    DiskCloneRelocateOperation d c (Device config) = Ok relocators.

(** The fetched properties of the source lack what the traditional
    builder dereferences: the configuration, or, for a linked clone, the
    current snapshot of the tree. *)
Definition cloneSourceIncomplete (d : ResourceData) (c : Client) : Prop :=
  ∃ vm vprops,
    virtualmachine_FromUUID c (template_uuid d) = Ok vm ∧
    virtualmachine_Properties c vm = Ok vprops ∧
    (mo.Config vprops = None ∨
     linked_clone d = true ∧
     ∃ info, mo.Snapshot vprops = Some info ∧ CurrentSnapshot info = None).

(** The adapter of section 4.3, step 6, for one declaration and the
    backing resolved for it: backing, limit, reservation and share level
    are the declared ones, the share count only under the custom level,
    and the MAC address is the declared one under the manual mode if a
    static MAC is asked for, and cleared with the mode otherwise.  The
    bandwidth is declared on the allocation the adapter has. *)
Definition declaredAllocation (ni : NetworkInterface)
    (allocation : VirtualEthernetCardResourceAllocation)
    : VirtualEthernetCardResourceAllocation :=
  {| Reservation := Some (bandwidth_reservation ni);
     Share :=
       {| Shares :=
            if String.eqb (bandwidth_share_level ni) SharesLevelCustom
            then int32 (bandwidth_share_count ni)
            else Shares (Share allocation);
          Level := bandwidth_share_level ni |};
     Limit := Some (bandwidth_limit ni) |}.

Definition rewrittenAdapter (ni : NetworkInterface) (backing : string)
    (card : VirtualEthernetCard) : VirtualEthernetCard :=
  {| Key := Key card;
     Backing := Some backing;
     AddressType :=
       if use_static_mac ni then VirtualEthernetCardMacTypeManual else EmptyString;
     MacAddress := if use_static_mac ni then mac_address ni else EmptyString;
     ResourceAllocation := declaredAllocation ni <$> ResourceAllocation card |}.

(** The adapters the loop runs over: distinct pointers to devices that
    implement the adapter interface. *)
Definition adapters (store : list BaseVirtualDevice) (devices : list ptr) : Prop :=
  NoDup devices ∧
  ∀ p, p ∈ devices → ∃ model card, store !! p = Some (EthernetDevice model card).

(** The positional pairing of the adapters [devices] of [store] with the
    declarations [n], from declaration [index] on: a paired adapter has
    an allocation and is rewritten in [store'] from its declaration and
    the backing of the declared network; every other device is as it
    was. *)
Definition pairedFrom (c : Client) (n : list NetworkInterface) (index : nat)
    (devices : list ptr) (store store' : list BaseVirtualDevice) : Prop :=
  (∀ j p ni, devices !! j = Some p → n !! (index + j) = Some ni →
     ∃ model card net backing,
       store !! p = Some (EthernetDevice model card) ∧
       is_Some (ResourceAllocation card) ∧
       network_FromID c (network_id ni) = Ok net ∧
       EthernetCardBackingInfo c net = Ok backing ∧
       store' !! p = Some (EthernetDevice model (rewrittenAdapter ni backing card))) ∧
  (∀ p, p ∉ take (length n - index) devices → store' !! p = store !! p).

Definition optionValueOf (kv : string * string) : OptionValue :=
  {| OptionKey := kv.1; OptionVal := kv.2 |}.

(** The network adapters of a device list, as section 4.3, step 5, has
    them: the positions of the devices of an adapter type, in the order
    of the list. *)
Fixpoint adaptersFrom (position : nat) (l : list BaseVirtualDevice) : list ptr :=
  match l with
  | [] => []
  | EthernetDevice _ _ :: l => position :: adaptersFrom (S position) l
  | OtherDevice _ _ :: l => adaptersFrom (S position) l
  end.

Definition networkAdapters (l : list BaseVirtualDevice) : list ptr := adaptersFrom 0 l.

(** A complete instant clone spec for [d]: every step of section 4.3 has
    succeeded and left its field; [store'] are the devices of the source
    after the pairing. *)
Definition completeInstantCloneSpec
    (DiskCloneRelocateOperation :
       ResourceData → Client → list BaseVirtualDevice →
       result (list VirtualMachineRelocateSpecDiskLocator))
    (order : MapRange) (d : ResourceData) (c : Client) (fo : Common)
    (spec : InstantCloneSpec.t) (vm : Common) (store' : list BaseVirtualDevice) : Prop :=
  ∃ ds vprops config pool relocators,
    let store := Device config in
    let devices := networkAdapters store in
    let n := network_interface d in
    spec = InstantCloneSpec.Build (name d)
             (RelocateSpec (Some (Reference fo)) ds EmptyString
                (Some (Reference pool)) None relocators
                (editOf <$> take (length n) devices))
             (optionValueOf <$> order (extra_config d)) ∧
    resolvedDatastore c d ds ∧
    virtualmachine_FromUUID c (source_uuid d) = Ok vm ∧
    virtualmachine_Properties c vm = Ok vprops ∧
    mo.Config vprops = Some config ∧
    pairedFrom c n 0 devices store store' ∧
    resourcepool_FromID c (resource_pool_id d) = Ok pool ∧
    DiskCloneRelocateOperation d c store' = Ok relocators.

(** The fetched properties of the source lack what the instant clone
    builder dereferences: the configuration, or the allocation of an
    adapter that is paired with a declaration. *)
Definition instantSourceIncomplete (d : ResourceData) (c : Client) : Prop :=
  ∃ vm vprops,
    virtualmachine_FromUUID c (source_uuid d) = Ok vm ∧
    virtualmachine_Properties c vm = Ok vprops ∧
    (mo.Config vprops = None ∨
     ∃ config i p model card,
       mo.Config vprops = Some config ∧
       networkAdapters (Device config) !! i = Some p ∧
       i < length (network_interface d) ∧
       Device config !! p = Some (EthernetDevice model card) ∧
       ResourceAllocation card = None).

(** ** Inputs used in the examples *)

Definition snapshot101 : ManagedObjectReference :=
  MoRef "VirtualMachineSnapshot" "snapshot-101".
Definition snapshot102 : ManagedObjectReference :=
  MoRef "VirtualMachineSnapshot" "snapshot-102".

Definition plainCard (key : Z) (mac : string) : VirtualEthernetCard :=
  {| Key := key; Backing := Some "VM Network"; AddressType := "assigned";
     MacAddress := mac;
     ResourceAllocation :=
       Some {| Reservation := Some 0%Z;
               Share := {| Shares := 50%Z; Level := "normal" |};
               Limit := Some (-1)%Z |} |}.

Definition manualCard (key : Z) (mac : string) : VirtualEthernetCard :=
  set_AddressType VirtualEthernetCardMacTypeManual (plainCard key mac).

(** A source with a controller, a disk and three adapters, the second of
    which has a manual MAC address, and one snapshot. *)
Definition sourceDevices : list BaseVirtualDevice :=
  [ OtherDevice "VirtualLsiLogicController" 1000;
    EthernetDevice "VirtualVmxnet3" (plainCard 4000 "00:50:56:aa:00:01");
    OtherDevice "VirtualDisk" 2000;
    EthernetDevice "VirtualE1000" (manualCard 4001 "00:50:56:aa:00:02");
    EthernetDevice "VirtualVmxnet3" (plainCard 4002 "00:50:56:aa:00:03") ].

Definition sourceConfig : VirtualMachineConfigInfo :=
  {| Uuid := "4207c5a8-0000-0000-0000-000000000001";
     GuestId := "otherLinux64Guest";
     Device := sourceDevices;
     VAppConfig := None |}.

Definition oneSnapshot : VirtualMachineSnapshotInfo :=
  SnapshotInfo (Some snapshot101) [SnapshotTree snapshot101 []].
Definition twoRoots : VirtualMachineSnapshotInfo :=
  SnapshotInfo (Some snapshot101) [SnapshotTree snapshot101 []; SnapshotTree snapshot102 []].

Definition sourceProps : mo.VirtualMachine :=
  {| mo.Config := Some sourceConfig; mo.Snapshot := Some oneSnapshot |}.
Definition sourceWithoutSnapshot : mo.VirtualMachine :=
  {| mo.Config := Some sourceConfig; mo.Snapshot := None |}.
Definition sourceWithTwoRoots : mo.VirtualMachine :=
  {| mo.Config := Some sourceConfig; mo.Snapshot := Some twoRoots |}.

(** A management plane that knows that source, one datastore, one
    resource pool whose compute resource has two hosts, a host outside
    of it, and one network. *)
Definition sourceVM : Common :=
  {| Reference := MoRef "VirtualMachine" "vm-42" |}.
Definition datastore5 : Common :=
  {| Reference := MoRef "Datastore" "datastore-5" |}.
Definition pool10 : Common :=
  {| Reference := MoRef "ResourcePool" "resgroup-10" |}.
Definition host20 : Common :=
  {| Reference := MoRef "HostSystem" "host-20" |}.
Definition host99 : Common :=
  {| Reference := MoRef "HostSystem" "host-99" |}.
Definition network7 : Common :=
  {| Reference := MoRef "Network" "network-7" |}.
Definition folder3 : Common :=
  {| Reference := MoRef "Folder" "group-v3" |}.

Definition labClient : Client :=
  {| datastore_FromID id :=
       if String.eqb id "datastore-5" then Ok datastore5 else Err "datastore not found";
     virtualmachine_FromUUID uuid :=
       if String.eqb uuid "4207c5a8-0000-0000-0000-000000000001"
       then Ok sourceVM else Err "virtual machine not found";
     virtualmachine_Properties vm := Ok sourceProps;
     resourcepool_FromID id :=
       if String.eqb id "resgroup-10" then Ok pool10 else Err "resource pool not found";
     resourcepool_OSFamily pool guest :=
       if String.eqb guest "otherLinux64Guest" then Ok "linuxGuest"
       else Err "unknown guest ID";
     hostsystem_FromID id :=
       if String.eqb id "host-20" then Ok host20
       else if String.eqb id "host-99" then Ok host99
       else Err "host not found";
     network_FromID id :=
       if String.eqb id "network-7" then Ok network7 else Err "network not found";
     EthernetCardBackingInfo net := Ok "network-7";
     computeresource_Hosts pool := ["host-20"; "host-21"] |}.

(** Collaborators that accept every layout and relocate no disk. *)
Definition acceptDisks : ResourceDiff → Client → list BaseVirtualDevice → bool → option string :=
  λ _ _ _ _, None.
Definition relocateNothing :
    ResourceData → Client → list BaseVirtualDevice →
    result (list VirtualMachineRelocateSpecDiskLocator) :=
  λ _ _ _, Ok [].
Definition acceptCustomization : ResourceDiff → string → option string :=
  λ _ _, None.

(** A plan in which the source is not yet known, with a customization
    block, a guest ID that names no guest and a resource pool that does
    not exist. *)
Definition deferredDiff : ResourceDiff :=
  {| diff_template_uuid := EmptyString;
     template_uuid_known := false;
     diff_linked_clone := false;
     diff_customize := ["linux_options"];
     diff_guest_id := "not-a-guest-id";
     diff_resource_pool_id := "resgroup-404";
     diff_disk := ["disk0"];
     vapp_transport := [] |}.

(** A plan for the source above with the guest ID of another system. *)
Definition ubuntuDiff : ResourceDiff :=
  {| diff_template_uuid := "4207c5a8-0000-0000-0000-000000000001";
     template_uuid_known := true;
     diff_linked_clone := true;
     diff_customize := ["linux_options"];
     diff_guest_id := "ubuntu64Guest";
     diff_resource_pool_id := "resgroup-10";
     diff_disk := ["disk0"];
     vapp_transport := [] |}.

(** Two runs of the Go runtime: one visits a map in the order of its
    listing, the other in the reverse order. *)
Definition ascending : MapRange :=
  {| range_of := map_to_list;
     range_visits := λ m, reflexivity (map_to_list m) |}.
Definition descending : MapRange :=
  {| range_of := λ m, reverse (map_to_list m);
     range_visits := λ m, reverse_Permutation (map_to_list m) |}.

(** Declarations of network interfaces: the defaults of the schema, and
    a static MAC address with custom shares. *)
Definition defaultInterface : NetworkInterface :=
  {| network_id := "network-7";
     bandwidth_limit := -1;
     bandwidth_reservation := 0;
     bandwidth_share_level := "normal";
     bandwidth_share_count := 0;
     use_static_mac := false;
     mac_address := EmptyString |}.
Definition staticInterface : NetworkInterface :=
  {| network_id := "network-7";
     bandwidth_limit := 1000;
     bandwidth_reservation := 100;
     bandwidth_share_level := "custom";
     bandwidth_share_count := 75;
     use_static_mac := true;
     mac_address := "00:50:56:bb:00:09" |}.

(** A configuration for the source above, with the given host, linked
    clone flag and network interfaces. *)
Definition cloneData (host : string) (linked : bool) (n : list NetworkInterface)
    : ResourceData :=
  {| name := "clone-01";
     datastore_id := "datastore-5";
     resource_pool_id := "resgroup-10";
     host_system_id := host;
     template_uuid := "4207c5a8-0000-0000-0000-000000000001";
     linked_clone := linked;
     source_uuid := "4207c5a8-0000-0000-0000-000000000001";
     extra_config := {[ "guestinfo.role" := "web"; "guestinfo.zone" := "b" ]};
     network_interface := n;
     disk := ["disk0"] |}.

(** ** The virtual machine data source *)

(** The declarations of the bindings are not among the sources; these
    are the fields [dataSourceVSphereVirtualMachineRead] reads.  The
    property fetch can come back without a configuration (the read tests
    [props.Config] against nil), and the flags the read copies are
    optional booleans. *)
Record ResourceAllocationInfo := {
  AllocationReservation : option Z;
  AllocationLimit : option Z;
  AllocationShares : option SharesInfo
}.

Record DataSourceConfigInfo := {
  BaseConfig : VirtualMachineConfigInfo;   (* Uuid, GuestId, Hardware.Device *)
  AlternateGuestName : string;
  Annotation : string;
  CpuHotAddEnabled : option bool;
  MemoryHotAddEnabled : option bool;
  EnableLogging : option bool;            (* Flags.EnableLogging *)
  DiskUuidEnabled : option bool;          (* Flags.DiskUuidEnabled *)
  Firmware : string;
  MemoryMB : Z;                           (* Hardware.MemoryMB *)
  NumCoresPerSocket : Z;                  (* Hardware.NumCoresPerSocket *)
  NumCPU : Z;                             (* Hardware.NumCPU *)
  CpuAllocation : option ResourceAllocationInfo;
  MemoryAllocation : option ResourceAllocationInfo
}.

Record FetchedVirtualMachine := {
  FetchedConfig : option DataSourceConfigInfo
}.

(** [object.VirtualMachine] with the inventory path the errors quote. *)
Record VirtualMachineObject := {
  VmCommon : Common;
  InventoryPath : string
}.

(** A value handed to [d.Set]. *)
Inductive Val :=
  | VString (s : string)
  | VBool (b : option bool)
  | VInt (z : Z)
  | VStrings (l : list string)
  | VBlocks (l : list (list (string * string))).

(** The errors of the read, one constructor per [fmt.Errorf]. *)
Inductive readError :=
  | ErrLocateDatacenter (cause : string)
      (* cannot locate datacenter: %s *)
  | ErrFetchVirtualMachine (cause : string)
      (* error fetching virtual machine: %s *)
  | ErrFetchVirtualMachineProperties (cause : string)
      (* error fetching virtual machine properties: %s *)
  | ErrNoConfiguration (path : string)
      (* no configuration returned for virtual machine %q *)
  | ErrNoUUID (path : string)
      (* virtual machine %q does not have a UUID *)
  | ErrReadDiskSizes (cause : string)
      (* error reading disk sizes: %s *)
  | ErrReadNetworkInterfaceTypes (cause : string)
      (* error reading network interface types: %s *)
  | ErrReadNetworkInterfaces (cause : string)
      (* error reading network interfaces: %s *)
  | ErrSetDiskSizes (cause : string)
      (* error setting disk sizes: %s *)
  | ErrSetNetworkInterfaceTypes (cause : string)
      (* error setting network interface types: %s *)
  | ErrSetNetworkInterfaces (cause : string)
      (* error setting network interfaces: %s *)
  | ErrSetCpuAllocation (cause : string)
      (* error setting cpu share allocation and limit: %s *)
  | ErrSetMemoryAllocation (cause : string)
      (* error setting memory share allocation and limit: %s *).

(** The keys of the data source the read gets. *)
Record DataSourceConfig := {
  ds_name : string;                       (* name *)
  ds_datacenter_id : string;              (* datacenter_id *)
  scsi_controller_scan_count : Z
}.

(** What the read leaves in [d]: the id, and the keys [d.Set] has stored
    with their values, in the order they were stored.  A call of [d.Set]
    that fails stores nothing. *)
Record DataSourceState := {
  Id : string;
  Written : list (string * Val)
}.

Definition SetId (v : string) (st : DataSourceState) : DataSourceState :=
  {| Id := v; Written := Written st |}.

(** The types of the schema of the data source, lines 20-181. *)
Inductive ValueType := TypeString | TypeBool | TypeInt | TypeList.

Definition Schema : list (string * ValueType) :=
  [ ("alternate_guest_name", TypeString);
    ("annotation", TypeString);
    ("cpu_hot_add_enabled", TypeBool);
    ("datacenter_id", TypeString);
    ("disks", TypeList);
    ("enable_disk_uuid", TypeBool);
    ("enable_logging", TypeBool);
    ("firmware", TypeString);
    ("guest_id", TypeString);
    ("memory", TypeInt);
    ("memory_hot_add_enabled", TypeBool);
    ("name", TypeString);
    ("network_interface_types", TypeList);
    ("network_interfaces", TypeList);
    ("num_cores_per_socket", TypeInt);
    ("num_cpus", TypeInt);
    ("scsi_bus_sharing", TypeString);
    ("scsi_controller_scan_count", TypeInt);
    ("scsi_type", TypeString) ].

Fixpoint typeOf (schema : list (string * ValueType)) (key : string) : option ValueType :=
  match schema with
  | [] => None
  | (k, t) :: schema => if String.eqb k key then Some t else typeOf schema key
  end.

(** What the read asks of the management plane and of the packages
    [virtualmachine] and [virtualdevice], none of which is among the
    sources.  [SetError] is the error [d.Set] returns for a list under a
    key of the list type, which depends on the elements of the list;
    [flattenVirtualMachineResourceAllocation] answers with what its
    calls of [d.Set] have stored and its error. *)
Record DataSourceClient := {
  datacenterFromID : string → result Common;
  virtualmachine_FromPath : string → option Common → result VirtualMachineObject;
  virtualmachine_FetchProperties : VirtualMachineObject → result FetchedVirtualMachine;
  ReadSCSIBusType : list BaseVirtualDevice → Z → string;
  ReadSCSIBusSharing : list BaseVirtualDevice → Z → string;
  ReadDiskAttrsForDataSource :
    list BaseVirtualDevice → Z → result (list (list (string * string)));
  ReadNetworkInterfaceTypes : list BaseVirtualDevice → result (list string);
  ReadNetworkInterfaces :
    list BaseVirtualDevice → result (list (list (string * string)));
  flattenVirtualMachineResourceAllocation :
    option ResourceAllocationInfo → string → list (string * Val) * option string;
  SetError : string → Val → option string
}.

(** The error of [d.Set(key, value)]: a key the schema does not declare
    and a value of another type than the declared one are refused; a
    string, a boolean and an integer are accepted under a key of their
    type; a list is accepted if its elements are. *)
Definition refusal (client : DataSourceClient) (key : string) (value : Val)
    : option string :=
  match typeOf Schema key, value with
  | Some TypeString, VString _ | Some TypeBool, VBool _ | Some TypeInt, VInt _ => None
  | Some TypeList, (VStrings _ | VBlocks _) => SetError client key value
  | Some _, _ => Some "invalid value type"
  | None, _ => Some "invalid key"
  end.

(** [d.Set(key, value)]: the value is stored under the key unless the
    call fails; its error is returned to the caller. *)
Definition Set_ (client : DataSourceClient) (key : string) (value : Val)
    (st : DataSourceState) : DataSourceState * option string :=
  match refusal client key value with
  | None => ({| Id := Id st; Written := Written st ++ [(key, value)] |}, None)
  | Some err => (st, Some err)
  end.

(** [dataSourceVSphereVirtualMachineRead], lines 188-263 of the data
    source.  The thirteen calls of [d.Set] of lines 220-232 drop the
    error of [Set].  In lines 246-254 the condition of each [if] is the
    variable [err], which holds the nil error of [ReadNetworkInterfaces]
    (line 242); the error of [d.Set] in the statement before the
    semicolon is dropped as well. *)
Definition dataSourceVSphereVirtualMachineRead (d : DataSourceConfig)
    (client : DataSourceClient) (st : DataSourceState)
    : DataSourceState * option readError :=
  let name := ds_name d in
  let '(dcID, ok) := GetOk (ds_datacenter_id d) in
  match (if ok then
           match datacenterFromID client dcID with
           | Err err => inl (ErrLocateDatacenter err)
           | Ok dc => inr (Some dc)
           end
         else inr None) with
  | inl err => (st, Some err)
  | inr dc =>
    match virtualmachine_FromPath client name dc with
    | Err err => (st, Some (ErrFetchVirtualMachine err))
    | Ok vm =>
      match virtualmachine_FetchProperties client vm with
      | Err err => (st, Some (ErrFetchVirtualMachineProperties err))
      | Ok props =>
        match FetchedConfig props with
        | None => (st, Some (ErrNoConfiguration (InventoryPath vm)))
        | Some config =>
          if String.eqb (Uuid (BaseConfig config)) EmptyString then
            (st, Some (ErrNoUUID (InventoryPath vm)))
          else
            let st := SetId (Uuid (BaseConfig config)) st in
            let st := (Set_ client "alternate_guest_name"
                         (VString (AlternateGuestName config)) st).1 in
            let st := (Set_ client "annotation" (VString (Annotation config)) st).1 in
            let st := (Set_ client "cpu_hot_add_enabled"
                         (VBool (CpuHotAddEnabled config)) st).1 in
            let st := (Set_ client "enable_logging" (VBool (EnableLogging config)) st).1 in
            let st := (Set_ client "enable_disk_uuid"
                         (VBool (DiskUuidEnabled config)) st).1 in
            let st := (Set_ client "firmware" (VString (Firmware config)) st).1 in
            let st := (Set_ client "guest_id"
                         (VString (GuestId (BaseConfig config))) st).1 in
            let st := (Set_ client "memory" (VInt (MemoryMB config)) st).1 in
            let st := (Set_ client "memory_hot_add_enabled"
                         (VBool (MemoryHotAddEnabled config)) st).1 in
            let st := (Set_ client "num_cores_per_socket"
                         (VInt (NumCoresPerSocket config)) st).1 in
            let st := (Set_ client "num_cpus" (VInt (NumCPU config)) st).1 in
            let l := Device (BaseConfig config) in
            let st := (Set_ client "scsi_type"
                         (VString (ReadSCSIBusType client l
                                     (scsi_controller_scan_count d))) st).1 in
            let st := (Set_ client "scsi_bus_sharing"
                         (VString (ReadSCSIBusSharing client l
                                     (scsi_controller_scan_count d))) st).1 in
            match ReadDiskAttrsForDataSource client l (scsi_controller_scan_count d) with
            | Err err => (st, Some (ErrReadDiskSizes err))
            | Ok disks =>
              match ReadNetworkInterfaceTypes client l with
              | Err err => (st, Some (ErrReadNetworkInterfaceTypes err))
              | Ok nics =>
                match ReadNetworkInterfaces client l with
                | Err err => (st, Some (ErrReadNetworkInterfaces err))
                | Ok networkInterfaces =>
                  (* the variable [err] from here on *)
                  let err : option string := None in
                  let st := (Set_ client "disks" (VBlocks disks) st).1 in
                  match err with
                  | Some err => (st, Some (ErrSetDiskSizes err))
                  | None =>
                    let st := (Set_ client "network_interface_types" (VStrings nics) st).1 in
                    match err with
                    | Some err => (st, Some (ErrSetNetworkInterfaceTypes err))
                    | None =>
                      let st := (Set_ client "network_interfaces"
                                   (VBlocks networkInterfaces) st).1 in
                      match err with
                      | Some err => (st, Some (ErrSetNetworkInterfaces err))
                      | None =>
                        let '(writes, err) :=
                          flattenVirtualMachineResourceAllocation client
                            (CpuAllocation config) "cpu" in
                        let st := {| Id := Id st; Written := Written st ++ writes |} in
                        match err with
                        | Some err => (st, Some (ErrSetCpuAllocation err))
                        | None =>
                          let '(writes, err) :=
                            flattenVirtualMachineResourceAllocation client
                              (MemoryAllocation config) "memory" in
                          let st := {| Id := Id st; Written := Written st ++ writes |} in
                          match err with
                          | Some err => (st, Some (ErrSetMemoryAllocation err))
                          | None => (st, None)
                          end
                        end
                      end
                    end
                  end
                end
              end
            end
        end
      end
    end
  end.

(** ** Notions of the further properties *)

(** The snapshots of a tree node, itself included, and of a source. *)
Fixpoint snapshotsOf (t : VirtualMachineSnapshotTree) : nat :=
  match t with
  | SnapshotTree _ children => S (list_sum (map snapshotsOf children))
  end.

Definition snapshotCount (info : VirtualMachineSnapshotInfo) : nat :=
  list_sum (map snapshotsOf (RootSnapshotList info)).

(** The four errors of [validateCloneSnapshots]. *)
Definition isSnapshotError (err : error) : Prop :=
  match err with
  | ErrNoSnapshot _ | ErrRootSnapshotCount _ _ | ErrRootHasChildren _
  | ErrCurrentSnapshotMismatch _ => True
  | _ => False
  end.

(** The checks of lines 86-117 on a known source pass, on the
    properties [vprops]. *)
Definition sourceChecksPass
    (DiskCloneValidateOperation :
       ResourceDiff → Client → list BaseVirtualDevice → bool → option string)
    (d : ResourceDiff) (c : Client) (vprops : mo.VirtualMachine) : Prop :=
  ∃ vm config,
    virtualmachine_FromUUID c (diff_template_uuid d) = Ok vm ∧
    virtualmachine_Properties c vm = Ok vprops ∧
    mo.Config vprops = Some config ∧
    GuestId config = diff_guest_id d ∧
    (diff_linked_clone d = true →
     ∃ info, mo.Snapshot vprops = Some info ∧ linkedCloneEligible info) ∧
    DiskCloneValidateOperation d c (Device config) (diff_linked_clone d) = None.

(** The diff after lines 118-124. *)
Definition withTransport (vprops : mo.VirtualMachine) (d : ResourceDiff) : ResourceDiff :=
  match VAppConfig <$> mo.Config vprops with
  | Some (Some vconfig) => SetNew_vapp_transport vconfig d
  | _ => d
  end.

(** The checks of lines 129-146 pass. *)
Definition customizationPasses
    (ValidateCustomizationSpec : ResourceDiff → string → option string)
    (d : ResourceDiff) (c : Client) : Prop :=
  diff_customize d = [] ∨ diff_resource_pool_id d = EmptyString ∨
  ∃ pool family,
    resourcepool_FromID c (diff_resource_pool_id d) = Ok pool ∧
    resourcepool_OSFamily c pool (diff_guest_id d) = Ok family ∧
    ValidateCustomizationSpec d family = None.

(** The network of a declaration resolves to a backing. *)
Definition resolves (c : Client) (ni : NetworkInterface) : Prop :=
  ∃ net backing,
    network_FromID c (network_id ni) = Ok net ∧
    EthernetCardBackingInfo c net = Ok backing.

(** Two states of one device: the same kind of device under the same
    key; a device that is no adapter is the same in both. *)
Definition sameDevice (device device' : BaseVirtualDevice) : Prop :=
  match device, device' with
  | EthernetDevice model card, EthernetDevice model' card' =>
    model = model' ∧ Key card = Key card'
  | OtherDevice kind key, OtherDevice kind' key' => kind = kind' ∧ key = key'
  | _, _ => False
  end.

(** [st'] has the id of [st] and what [st] has stored, in the same
    order, and maybe more. *)
Definition extends (st st' : DataSourceState) : Prop :=
  Id st' = Id st ∧ Written st `prefix_of` Written st'.

(** The errors of lines 246-254 of the data source. *)
Definition isSetError (err : readError) : Prop :=
  match err with
  | ErrSetDiskSizes _ | ErrSetNetworkInterfaceTypes _ | ErrSetNetworkInterfaces _ => True
  | _ => False
  end.

(** The errors of the data source before it writes anything. *)
Definition isLookupError (err : readError) : Prop :=
  match err with
  | ErrLocateDatacenter _ | ErrFetchVirtualMachine _
  | ErrFetchVirtualMachineProperties _ | ErrNoConfiguration _ | ErrNoUUID _ => True
  | _ => False
  end.


(** ** Inputs used in the further examples *)

(** A plan for the source of the examples with its own guest ID. *)
Definition linuxDiff : ResourceDiff :=
  {| diff_template_uuid := "4207c5a8-0000-0000-0000-000000000001";
     template_uuid_known := true;
     diff_linked_clone := true;
     diff_customize := ["linux_options"];
     diff_guest_id := "otherLinux64Guest";
     diff_resource_pool_id := "resgroup-10";
     diff_disk := ["disk0"];
     vapp_transport := [] |}.

(** The same source with two snapshots in a chain. *)
Definition chainOfTwo : VirtualMachineSnapshotInfo :=
  SnapshotInfo (Some snapshot102) [SnapshotTree snapshot101 [SnapshotTree snapshot102 []]].
Definition sourceWithChain : mo.VirtualMachine :=
  {| mo.Config := Some sourceConfig; mo.Snapshot := Some chainOfTwo |}.
Definition chainClient : Client :=
  {| datastore_FromID := datastore_FromID labClient;
     virtualmachine_FromUUID := virtualmachine_FromUUID labClient;
     virtualmachine_Properties vm := Ok sourceWithChain;
     resourcepool_FromID := resourcepool_FromID labClient;
     resourcepool_OSFamily := resourcepool_OSFamily labClient;
     hostsystem_FromID := hostsystem_FromID labClient;
     network_FromID := network_FromID labClient;
     EthernetCardBackingInfo := EthernetCardBackingInfo labClient;
     computeresource_Hosts := computeresource_Hosts labClient |}.

Definition wideInterface : NetworkInterface :=
  {| network_id := "network-7";
     bandwidth_limit := -1;
     bandwidth_reservation := 0;
     bandwidth_share_level := "custom";
     bandwidth_share_count := 4294967396;
     use_static_mac := false;
     mac_address := EmptyString |}.

(** The data source: the source of the examples under its path, read
    through a [d.Set] that refuses the lists. *)
Definition sourceObject : VirtualMachineObject :=
  {| VmCommon := sourceVM; InventoryPath := "/dc1/vm/source" |}.
Definition sourceDataConfig : DataSourceConfigInfo :=
  {| BaseConfig := sourceConfig;
     AlternateGuestName := EmptyString;
     Annotation := "golden image";
     CpuHotAddEnabled := Some true;
     MemoryHotAddEnabled := None;
     EnableLogging := Some true;
     DiskUuidEnabled := None;
     Firmware := "bios";
     MemoryMB := 4096;
     NumCoresPerSocket := 1;
     NumCPU := 2;
     CpuAllocation := None;
     MemoryAllocation := None |}.
Definition labDataSource : DataSourceClient :=
  {| datacenterFromID id :=
       if String.eqb id "datacenter-2" then Ok {| Reference := MoRef "Datacenter" id |}
       else Err "datacenter not found";
     virtualmachine_FromPath path dc :=
       if String.eqb path "source" then Ok sourceObject
       else Err "virtual machine not found";
     virtualmachine_FetchProperties vm := Ok {| FetchedConfig := Some sourceDataConfig |};
     ReadSCSIBusType l count := "lsilogic";
     ReadSCSIBusSharing l count := "noSharing";
     ReadDiskAttrsForDataSource l count := Ok [[("size", "20")]];
     ReadNetworkInterfaceTypes l := Ok ["vmxnet3"; "e1000"; "vmxnet3"];
     ReadNetworkInterfaces l := Ok [[("adapter_type", "vmxnet3")]];
     flattenVirtualMachineResourceAllocation alloc kind := ([], None);
     SetError key value :=
       match value with
       | VBlocks _ | VStrings _ => Some "invalid list"
       | _ => None
       end |}.
Definition sourceQuery : DataSourceConfig :=
  {| ds_name := "source"; ds_datacenter_id := "datacenter-2";
     scsi_controller_scan_count := 1 |}.
Definition freshState : DataSourceState := {| Id := EmptyString; Written := [] |}.


(** A query for a machine that does not exist, and a management plane
    on which the disks cannot be read. *)
Definition missingQuery : DataSourceConfig :=
  {| ds_name := "missing"; ds_datacenter_id := EmptyString;
     scsi_controller_scan_count := 1 |}.
Definition unreadableDisks : DataSourceClient :=
  {| datacenterFromID := datacenterFromID labDataSource;
     virtualmachine_FromPath := virtualmachine_FromPath labDataSource;
     virtualmachine_FetchProperties := virtualmachine_FetchProperties labDataSource;
     ReadSCSIBusType := ReadSCSIBusType labDataSource;
     ReadSCSIBusSharing := ReadSCSIBusSharing labDataSource;
     ReadDiskAttrsForDataSource l count := Err "no controller";
     ReadNetworkInterfaceTypes := ReadNetworkInterfaceTypes labDataSource;
     ReadNetworkInterfaces := ReadNetworkInterfaces labDataSource;
     flattenVirtualMachineResourceAllocation :=
       flattenVirtualMachineResourceAllocation labDataSource;
     SetError := SetError labDataSource |}.

(** ** Sources that lack what the workflow dereferences *)

(** The management plane of the examples with other properties for its
    source. *)
Definition clientOf (vprops : mo.VirtualMachine) : Client :=
  {| datastore_FromID := datastore_FromID labClient;
     virtualmachine_FromUUID := virtualmachine_FromUUID labClient;
     virtualmachine_Properties vm := Ok vprops;
     resourcepool_FromID := resourcepool_FromID labClient;
     resourcepool_OSFamily := resourcepool_OSFamily labClient;
     hostsystem_FromID := hostsystem_FromID labClient;
     network_FromID := network_FromID labClient;
     EthernetCardBackingInfo := EthernetCardBackingInfo labClient;
     computeresource_Hosts := computeresource_Hosts labClient |}.

(** A snapshot tree with one childless root and no current snapshot. *)
Definition noCurrentSnapshot : VirtualMachineSnapshotInfo :=
  SnapshotInfo None [SnapshotTree snapshot101 []].
Definition sourceWithoutCurrent : mo.VirtualMachine :=
  {| mo.Config := Some sourceConfig; mo.Snapshot := Some noCurrentSnapshot |}.

(** Properties that came back without a configuration and without a
    snapshot tree. *)
Definition sourceWithoutConfig : mo.VirtualMachine :=
  {| mo.Config := None; mo.Snapshot := None |}.

(** A source whose only adapter reports no allocation. *)
Definition bareCard (key : Z) (mac : string) : VirtualEthernetCard :=
  set_ResourceAllocation None (plainCard key mac).
Definition bareDevices : list BaseVirtualDevice :=
  [ OtherDevice "VirtualLsiLogicController" 1000;
    EthernetDevice "VirtualVmxnet3" (bareCard 4000 "00:50:56:aa:00:01") ].
Definition sourceWithBareAdapter : mo.VirtualMachine :=
  {| mo.Config :=
       Some {| Uuid := "4207c5a8-0000-0000-0000-000000000001";
               GuestId := "otherLinux64Guest";
               Device := bareDevices;
               VAppConfig := None |};
     mo.Snapshot := None |}.


(** * Properties *)

(** ** Snapshot eligibility *)

Lemma validateCloneSnapshots_nil props :
  validateCloneSnapshots props = None ↔
  ∃ snapshot, mo.Snapshot props = Some snapshot ∧ linkedCloneEligible snapshot.
Proof.
  unfold validateCloneSnapshots, linkedCloneEligible, withUuid.
  destruct (mo.Snapshot props) as [[cur roots]|]; simpl.
  - destruct roots as [|[ref children] [|second rest]]; simpl.
    + split; [by destruct (mo.Config props) | intros (s & [= <-] & Hlen & _); done].
    + destruct children as [|child children]; simpl.
      * destruct cur as [cur|].
        -- destruct (String.eqb_spec (Value cur) (Value ref)) as [Heq | Hne]; simpl.
           ++ split; [| done]. intros _. eexists; split; [done |].
              split; [done |]. exists (SnapshotTree ref []), cur. done.
           ++ split; [by destruct (mo.Config props) |].
              intros (s & [= <-] & _ & root & current & [= <-] & _ & [= <-] & Heq).
              simpl in Heq. congruence.
        -- split; [done |].
           intros (s & [= <-] & _ & root & current & _ & _ & [=] & _).
      * split; [by destruct (mo.Config props) |].
        intros (s & [= <-] & _ & root & current & [= <-] & Hch & _). done.
    + split; [by destruct (mo.Config props) | intros (s & [= <-] & Hlen & _); done].
  - split; [by destruct (mo.Config props) | intros (s & ? & _); done].
Qed.

(** The check ends in a panic only on a source without a configuration
    or on a tree without a current snapshot. *)
Lemma validateCloneSnapshots_panic props err :
  validateCloneSnapshots props = Some err → isPanic err →
  mo.Config props = None ∨
  ∃ info, mo.Snapshot props = Some info ∧ CurrentSnapshot info = None.
Proof.
  unfold validateCloneSnapshots, withUuid. intros H [msg ->]. revert H.
  destruct (mo.Config props) as [config|]; [| by left].
  destruct (mo.Snapshot props) as [[cur roots]|]; [| done]. simpl.
  destruct roots as [|root [|second rest]]; simpl; [done | | done].
  destruct (Nat.ltb _ _); [done |].
  destruct cur as [cur|]; [by destruct (negb _) |].
  intros _. right. by eexists.
Qed.

(** C1. For a source that has a snapshot tree, [validateCloneSnapshots]
    succeeds exactly when the tree has one root node, that node has no
    children and there is a current snapshot, which is the root node's
    snapshot.  On a source with a configuration a violated clause is a
    failure that names that clause (the number of roots, then the
    children of the root, then the current snapshot) as long as the tree
    has a current snapshot.  On one childless root without a current
    snapshot the check does not report the third clause: it ends in a
    nil pointer dereference; and so does every failing check on a source
    without a configuration. *)
Theorem validateCloneSnapshots_three_clauses props snapshot :
  mo.Snapshot props = Some snapshot →
  (validateCloneSnapshots props = None ↔ linkedCloneEligible snapshot) ∧
  (∀ config, mo.Config props = Some config →
     (length (RootSnapshotList snapshot) ≠ 1 →
      validateCloneSnapshots props =
        Some (ErrRootSnapshotCount (Uuid config) (length (RootSnapshotList snapshot)))) ∧
     (∀ root, RootSnapshotList snapshot = [root] →
              ChildSnapshotList root ≠ [] →
      validateCloneSnapshots props = Some (ErrRootHasChildren (Uuid config))) ∧
     (∀ root current, RootSnapshotList snapshot = [root] →
              ChildSnapshotList root = [] →
              CurrentSnapshot snapshot = Some current →
              Value current ≠ Value (Snapshot root) →
      validateCloneSnapshots props = Some (ErrCurrentSnapshotMismatch (Uuid config)))) ∧
  (∀ root, RootSnapshotList snapshot = [root] →
           ChildSnapshotList root = [] →
           CurrentSnapshot snapshot = None →
   validateCloneSnapshots props = Some (Panic "nil pointer dereference")) ∧
  (mo.Config props = None → ¬ linkedCloneEligible snapshot →
   validateCloneSnapshots props = Some (Panic "nil pointer dereference")).
Proof.
  intros Hsnap.
  assert (Hiff : validateCloneSnapshots props = None ↔ linkedCloneEligible snapshot).
  { rewrite validateCloneSnapshots_nil, Hsnap. split.
    - intros (s & [= <-] & He). exact He.
    - intros He. eauto. }
  split; [exact Hiff |]. split; [| split].
  - intros config Hconfig. split; [| split].
    + intros Hlen. unfold validateCloneSnapshots, withUuid. rewrite Hsnap, Hconfig.
      destruct (Nat.eqb_spec (length (RootSnapshotList snapshot)) 1); [done | done].
    + intros root Hroots Hch. unfold validateCloneSnapshots, withUuid.
      rewrite Hsnap, Hroots, Hconfig.
      simpl. destruct (ChildSnapshotList root); [done | done].
    + intros root current Hroots Hch Hcur Hne. unfold validateCloneSnapshots, withUuid.
      rewrite Hsnap, Hroots, Hconfig. simpl. rewrite Hch, Hcur. simpl.
      destruct (String.eqb_spec (Value current) (Value (Snapshot root))); [done | done].
  - intros root Hroots Hch Hcur. unfold validateCloneSnapshots.
    rewrite Hsnap, Hroots. simpl. by rewrite Hch, Hcur.
  - intros Hconfig Hnot.
    destruct (validateCloneSnapshots props) as [err|] eqn:Hv;
      [| exfalso; by apply Hnot, Hiff].
    revert Hv. unfold validateCloneSnapshots, withUuid. rewrite Hsnap, Hconfig.
    destruct (RootSnapshotList snapshot) as [|root [|second rest]]; simpl;
      [congruence | | congruence].
    destruct (Nat.ltb _ _); [congruence |].
    destruct (CurrentSnapshot snapshot); [| congruence].
    destruct (negb _); congruence.
Qed.

(** Two roots are reported with their number; one childless root
    without a current snapshot is not reported: the check panics. *)
Lemma validateCloneSnapshots_three_clauses_witness :
  validateCloneSnapshots sourceWithTwoRoots =
    Some (ErrRootSnapshotCount "4207c5a8-0000-0000-0000-000000000001" 2) ∧
  validateCloneSnapshots sourceWithoutCurrent = Some (Panic "nil pointer dereference").
Proof.
  split.
  - destruct (validateCloneSnapshots_three_clauses sourceWithTwoRoots twoRoots eq_refl)
      as (_ & Hclauses & _).
    destruct (Hclauses sourceConfig eq_refl) as (Hcount & _).
    apply Hcount. simpl. lia.
  - destruct (validateCloneSnapshots_three_clauses sourceWithoutCurrent noCurrentSnapshot
                eq_refl) as (_ & _ & Hpanic & _).
    apply (Hpanic (SnapshotTree snapshot101 [])); reflexivity.
Defined.

(** C10. A source without a snapshot tree and with a configuration
    fails with the error of its own, which quotes the UUID of the
    configuration; without a configuration the check ends in a nil
    pointer dereference when it reads that UUID.  The error is returned
    for no source that has a snapshot tree, so the three clauses are only
    looked at when there is a tree. *)
Theorem validateCloneSnapshots_no_snapshot props :
  mo.Snapshot props = None →
  (∀ config, mo.Config props = Some config →
     validateCloneSnapshots props = Some (ErrNoSnapshot (Uuid config))) ∧
  (mo.Config props = None →
     validateCloneSnapshots props = Some (Panic "nil pointer dereference")) ∧
  ∀ props' uuid, validateCloneSnapshots props' = Some (ErrNoSnapshot uuid) →
                 mo.Snapshot props' = None.
Proof.
  intros Hnil. split; [| split].
  - intros config Hconfig. unfold validateCloneSnapshots, withUuid.
    by rewrite Hnil, Hconfig.
  - intros Hconfig. unfold validateCloneSnapshots, withUuid. by rewrite Hnil, Hconfig.
  - intros props' uuid. unfold validateCloneSnapshots, withUuid.
    destruct (mo.Snapshot props') as [snapshot|]; [| done].
    destruct (mo.Config props'); destruct (negb _); try done.
    all: destruct (RootSnapshotList snapshot) as [|root ?]; [done |].
    all: destruct (Nat.ltb _ _); [done |].
    all: destruct (CurrentSnapshot snapshot); [| done].
    all: destruct (negb _); done.
Qed.

(** Without a snapshot tree the source is reported with its UUID; with
    neither a snapshot tree nor a configuration the check panics. *)
Lemma validateCloneSnapshots_no_snapshot_witness :
  validateCloneSnapshots sourceWithoutSnapshot =
    Some (ErrNoSnapshot "4207c5a8-0000-0000-0000-000000000001") ∧
  validateCloneSnapshots sourceWithoutConfig = Some (Panic "nil pointer dereference").
Proof.
  split.
  - destruct (validateCloneSnapshots_no_snapshot sourceWithoutSnapshot eq_refl)
      as (Hreported & _).
    apply (Hreported sourceConfig). reflexivity.
  - destruct (validateCloneSnapshots_no_snapshot sourceWithoutConfig eq_refl)
      as (_ & Hpanic & _).
    apply Hpanic. reflexivity.
Defined.

(** ** The clone validator *)

Section ValidatorProperties.

Variable DiskCloneValidateOperation :
  ResourceDiff → Client → list BaseVirtualDevice → bool → option string.
Variable ValidateCustomizationSpec : ResourceDiff → string → option string.

Local Abbreviation Validate :=
  (ValidateVirtualMachineClone DiskCloneValidateOperation ValidateCustomizationSpec).

Lemma validateCloneSnapshots_not_guest_id props :
  ¬ isInvalidGuestID (validateCloneSnapshots props).
Proof.
  intros (a & e & H). revert H. unfold validateCloneSnapshots, withUuid.
  repeat (case_match; try done).
Qed.

(** C4. Once the source is known, resolved and its properties fetched
    with a configuration, validation fails with the guest-ID error
    exactly when the declared guest ID differs from the source's, and the
    error names the declared and the expected ID; the linked-clone flag
    and the customization block play no part. *)
Theorem guest_id_check_is_equality d c vm vprops config :
  template_uuid_known d = true →
  virtualmachine_FromUUID c (diff_template_uuid d) = Ok vm →
  virtualmachine_Properties c vm = Ok vprops →
  mo.Config vprops = Some config →
  (isInvalidGuestID
     (ValidateVirtualMachineClone DiskCloneValidateOperation ValidateCustomizationSpec
        d c).2 ↔ diff_guest_id d ≠ GuestId config) ∧
  (diff_guest_id d ≠ GuestId config →
   Validate d c =
     (d, Some (ErrInvalidGuestID (diff_guest_id d) (GuestId config)))).
Proof.
  intros Hknown Hvm Hprops Hconfig.
  assert (Hne : diff_guest_id d ≠ GuestId config →
    Validate d c =
      (d, Some (ErrInvalidGuestID (diff_guest_id d) (GuestId config)))).
  { intros Hne. unfold ValidateVirtualMachineClone.
    rewrite Hknown, Hvm, Hprops, Hconfig.
    destruct (String.eqb_spec (GuestId config) (diff_guest_id d));
      [congruence | reflexivity]. }
  split; [| exact Hne]. split.
  - intros (a & e & Herr) Heq. revert Herr.
    unfold ValidateVirtualMachineClone. rewrite Hknown, Hvm, Hprops, Hconfig.
    destruct (String.eqb_spec (GuestId config) (diff_guest_id d)) as [_|];
      [| congruence]. simpl.
    destruct (diff_linked_clone d).
    + pose proof (validateCloneSnapshots_not_guest_id vprops) as Hsnap.
      destruct (validateCloneSnapshots vprops) as [err|] eqn:Hv.
      * simpl. intros [= ->]. apply Hsnap. by exists a, e.
      * unfold GetOk. repeat (case_match; simplify_eq; try done).
    + unfold GetOk. repeat (case_match; simplify_eq; try done).
  - intros Hd. rewrite (Hne Hd). by eexists _, _.
Qed.

(** C2, as the code has it. With a source that is not yet known, the
    checks on the source are skipped and the diff is left as it is;
    validation succeeds when no customization block is declared or no
    resource pool is set, and otherwise it fails exactly in the checks of
    the customization block: the resource pool lookup, the OS family of
    the declared guest ID, or the customization validator. *)
Theorem deferred_source_only_checks_customization d c :
  template_uuid_known d = false →
  (ValidateVirtualMachineClone DiskCloneValidateOperation ValidateCustomizationSpec
     d c).1 = d ∧
  (diff_customize d = [] ∨ diff_resource_pool_id d = EmptyString →
   (Validate d c).2 = None) ∧
  (∀ err, (Validate d c).2 = Some err ↔
     diff_customize d ≠ [] ∧ diff_resource_pool_id d ≠ EmptyString ∧
     ((∃ cause, resourcepool_FromID c (diff_resource_pool_id d) = Err cause ∧
                err = ErrResourcePool (diff_resource_pool_id d) cause) ∨
      (∃ pool cause, resourcepool_FromID c (diff_resource_pool_id d) = Ok pool ∧
                resourcepool_OSFamily c pool (diff_guest_id d) = Err cause ∧
                err = ErrOSFamily (diff_guest_id d) cause) ∨
      (∃ pool family cause,
                resourcepool_FromID c (diff_resource_pool_id d) = Ok pool ∧
                resourcepool_OSFamily c pool (diff_guest_id d) = Ok family ∧
                ValidateCustomizationSpec d family = Some cause ∧
                err = Propagated cause))).
Proof.
  intros Hunknown. unfold ValidateVirtualMachineClone, GetOk. rewrite Hunknown.
  destruct (diff_customize d) as [|block blocks]; simpl.
  { split; [done |]. split; [done |]. intros err. split; [done |]. by intros [? _]. }
  destruct (String.eqb_spec (diff_resource_pool_id d) EmptyString) as [Hp|Hp]; simpl.
  { split; [done |]. split; [done |]. intros err. split; [done |]. by intros (_ & ? & _). }
  destruct (resourcepool_FromID c (diff_resource_pool_id d)) as [pool|cause] eqn:Hpool.
  - destruct (resourcepool_OSFamily c pool (diff_guest_id d)) as [family|cause] eqn:Hfam.
    + destruct (ValidateCustomizationSpec d family) as [cause|] eqn:Hcust; simpl.
      * split; [done |]. split; [intros [|]; done |]. intros err. split.
        -- intros [= <-]. repeat split; [done.. |]. right; right. eauto 10.
        -- intros (_ & _ & [(? & ? & _) | [(? & ? & ? & ? & _) |
                     (? & ? & ? & ? & ? & ? & ->)]]); congruence.
      * split; [done |]. split; [done |]. intros err. split; [done |].
        intros (_ & _ & [(? & ? & _) | [(? & ? & ? & ? & _) |
                     (? & ? & ? & ? & ? & ? & ->)]]); congruence.
    + simpl. split; [done |]. split; [intros [|]; done |]. intros err. split.
      * intros [= <-]. repeat split; [done.. |]. right; left. eauto 10.
      * intros (_ & _ & [(? & ? & _) | [(? & ? & ? & ? & ->) |
                   (? & ? & ? & ? & ? & ? & _)]]); congruence.
  - simpl. split; [done |]. split; [intros [|]; done |]. intros err. split.
    + intros [= <-]. repeat split; [done.. |]. left. eauto.
    + intros (_ & _ & [(? & ? & ->) | [(? & ? & ? & ? & _) |
                 (? & ? & ? & ? & ? & ? & _)]]); congruence.
Qed.

End ValidatorProperties.

Lemma guest_id_check_is_equality_witness :
  ValidateVirtualMachineClone acceptDisks acceptCustomization ubuntuDiff labClient =
    (ubuntuDiff, Some (ErrInvalidGuestID "ubuntu64Guest" "otherLinux64Guest")).
Proof.
  apply (guest_id_check_is_equality acceptDisks acceptCustomization
           ubuntuDiff labClient sourceVM sourceProps sourceConfig
           eq_refl eq_refl eq_refl eq_refl).
  simpl. discriminate.
Defined.

Lemma deferred_source_only_checks_customization_witness :
  (ValidateVirtualMachineClone acceptDisks acceptCustomization deferredDiff labClient).1 =
    deferredDiff.
Proof.
  apply (deferred_source_only_checks_customization acceptDisks acceptCustomization
           deferredDiff labClient eq_refl).
Defined.

(** C2, as stated, fails: the source of this plan is not yet known, and
    validation fails on the resource pool of its customization block. *)
Lemma deferred_source_can_fail :
  template_uuid_known deferredDiff = false ∧
  (ValidateVirtualMachineClone acceptDisks acceptCustomization deferredDiff labClient).2 =
    Some (ErrResourcePool "resgroup-404" "resource pool not found").
Proof. split; reflexivity. Qed.

(** ** The traditional clone spec builder *)

Section CloneSpecProperties.

Variable DiskCloneRelocateOperation :
  ResourceData → Client → list BaseVirtualDevice →
  result (list VirtualMachineRelocateSpecDiskLocator).

Local Abbreviation Expand := (ExpandVirtualMachineCloneSpec DiskCloneRelocateOperation).
Local Abbreviation complete := (completeCloneSpec DiskCloneRelocateOperation).

(** The successful runs of the builder are the complete specs. *)
Lemma ExpandVirtualMachineCloneSpec_success d c spec vm :
  Expand d c = (spec, Some vm, None) ↔ complete d c spec vm.
Proof.
  unfold ExpandVirtualMachineCloneSpec, completeCloneSpec, resolvedDatastore,
    resolvedHost, linkedCloneFields, resourcepool_ValidateHost, GetOk.
  split.
  - intros H.
    destruct (String.eqb (datastore_id d) EmptyString) eqn:Hds; simpl in H;
      [| destruct (datastore_FromID c (datastore_id d)) as [ds|] eqn:Hdsr; [| done]].
    all: destruct (virtualmachine_FromUUID c (template_uuid d)) as [vm'|] eqn:Hvm; [| done].
    all: destruct (virtualmachine_Properties c vm') as [vprops|] eqn:Hp; [| done].
    all: destruct (linked_clone d) eqn:Hl;
      [ destruct (validateCloneSnapshots vprops) eqn:Hv; [done |];
        apply validateCloneSnapshots_nil in Hv as (info & Hinfo & Helig);
        rewrite Hinfo in H;
        pose proof Helig as (_ & root & current & _ & _ & Hcur & _);
        rewrite Hcur in H |].
    all: destruct (resourcepool_FromID c (resource_pool_id d)) as [pool|] eqn:Hpool; [| done].
    all: destruct (String.eqb (host_system_id d) EmptyString) eqn:Hh; simpl in H;
      [| destruct (hostsystem_FromID c (host_system_id d)) as [hs|] eqn:Hhs; [| done];
         destruct (bool_decide _) eqn:Hin; [apply bool_decide_eq_true in Hin | done] ].
    all: destruct (mo.Config vprops) as [config|] eqn:Hconfig; [| done].
    all: destruct (DiskCloneRelocateOperation d c (Device config))
           as [relocators|] eqn:Hrel; [| done].
    all: injection H as <- <-.
    all: eexists _, _, _, vprops, config, pool, _, relocators.
    all: repeat split; eauto 10.
  - intros (ds & snapshot & mv & vprops & config & pool & hs & relocators &
            -> & Hds & Hvm & Hp & Hl & Hpool & Hh & Hconfig & Hrel).
    destruct (String.eqb (datastore_id d) EmptyString); simpl;
      [ subst ds | destruct Hds as (h & -> & ->) ].
    all: rewrite Hvm, Hp.
    all: destruct (linked_clone d);
      [ destruct Hl as (info & Hinfo & Helig & -> & ->);
        rewrite (proj2 (validateCloneSnapshots_nil vprops)) by eauto;
        rewrite Hinfo;
        pose proof Helig as (_ & root & current & _ & _ & Hcur & _);
        rewrite Hcur
      | destruct Hl as [-> ->] ].
    all: rewrite Hpool.
    all: destruct (String.eqb (host_system_id d) EmptyString); simpl;
      [ subst hs | destruct Hh as (h' & -> & -> & Hin); rewrite bool_decide_eq_true_2 by done ].
    all: rewrite Hconfig, Hrel; reflexivity.
Qed.

(** The builder hands out the source only with a nil error, and it ends
    in a panic only on a source that lacks its configuration or its
    current snapshot. *)
Lemma ExpandVirtualMachineCloneSpec_outcome d c :
  (∃ spec vm, Expand d c = (spec, Some vm, None)) ∨
  (∃ spec err, Expand d c = (spec, None, Some err) ∧
               (isPanic err → cloneSourceIncomplete d c)).
Proof.
  unfold ExpandVirtualMachineCloneSpec, resourcepool_ValidateHost, GetOk.
  destruct (String.eqb (datastore_id d) EmptyString); simpl;
    [| destruct (datastore_FromID c (datastore_id d)) as [ds|];
       [| right; eexists _, _; split; [done | by intros [? [=]] ] ] ].
  all: destruct (virtualmachine_FromUUID c (template_uuid d)) as [vm'|] eqn:Hvm;
    [| right; eexists _, _; split; [done | by intros [? [=]] ] ].
  all: destruct (virtualmachine_Properties c vm') as [vprops|] eqn:Hp;
    [| right; eexists _, _; split; [done | by intros [? [=]] ] ].
  all: destruct (linked_clone d) eqn:Hl;
    [ destruct (validateCloneSnapshots vprops) as [err|] eqn:Hv;
      [ right; eexists _, _; split; [done |];
        intros Hpanic; exists vm', vprops; split; [done |]; split; [done |];
        destruct (validateCloneSnapshots_panic _ _ Hv Hpanic); [by left | right; by split]
      | apply validateCloneSnapshots_nil in Hv as (info & Hinfo & Helig);
        rewrite Hinfo;
        pose proof Helig as (_ & root & current & _ & _ & Hcur & _);
        rewrite Hcur ] |].
  all: destruct (resourcepool_FromID c (resource_pool_id d)) as [pool|];
    [| right; eexists _, _; split; [done | by intros [? [=]] ] ].
  all: destruct (String.eqb (host_system_id d) EmptyString); simpl;
    [| destruct (hostsystem_FromID c (host_system_id d)) as [hs|];
       [ destruct (bool_decide _);
         [| right; eexists _, _; split; [done | by intros [? [=]] ] ]
       | right; eexists _, _; split; [done | by intros [? [=]] ] ] ].
  all: destruct (mo.Config vprops) as [config|] eqn:Hconfig;
    [| right; eexists _, _; split; [done |]; intros _; exists vm', vprops; by auto ].
  all: destruct (DiskCloneRelocateOperation d c (Device config))
         as [relocators|];
    [ left; eexists _, _; done
    | right; eexists _, _; split; [done | by intros [? [=]] ] ].
Qed.

End CloneSpecProperties.

(** ** The instant clone spec builder *)

Lemma set_DeviceChange_twice v w r :
  set_DeviceChange v (set_DeviceChange w r) = set_DeviceChange v r.
Proof. by destruct r. Qed.

Lemma set_DeviceChange_same r : set_DeviceChange (DeviceChange r) r = r.
Proof. by destruct r. Qed.

Lemma Location_DeviceChange_twice v w spec :
  InstantCloneSpecUpd.Location (set_DeviceChange v)
    (InstantCloneSpecUpd.Location (set_DeviceChange w) spec) =
  InstantCloneSpecUpd.Location (set_DeviceChange v) spec.
Proof.
  destruct spec as [nm loc cfg]. unfold InstantCloneSpecUpd.Location. simpl.
  by rewrite set_DeviceChange_twice.
Qed.

Lemma Location_DeviceChange_same spec :
  InstantCloneSpecUpd.Location
    (set_DeviceChange (DeviceChange (InstantCloneSpec.Location spec))) spec = spec.
Proof.
  destruct spec as [nm loc cfg]. unfold InstantCloneSpecUpd.Location. simpl.
  by rewrite set_DeviceChange_same.
Qed.

Lemma Select_adapters store :
  adapters store (Select store isEthernetCard (VirtualDeviceList store)).
Proof.
  unfold adapters, Select, VirtualDeviceList. split.
  - apply NoDup_filter, NoDup_seq.
  - intros p Hp. apply list_elem_of_filter in Hp as [Hp _].
    destruct (store !! p) as [[model card|kind key]|]; [| done | done]. eauto.
Qed.


(** What the builder selects are the network adapters of the hardware
    list, by position. *)
Lemma Select_adaptersFrom (l : list BaseVirtualDevice) :
  ∀ pre,
    filter (λ p, Is_true (from_option isEthernetCard false ((pre ++ l) !! p)))
      (seq (length pre) (length l)) = adaptersFrom (length pre) l.
Proof.
  induction l as [|device l IH]; intros pre; [done |].
  cbn [length seq adaptersFrom]. rewrite filter_cons.
  assert (Hhead : (pre ++ device :: l) !! length pre = Some device).
  { by rewrite lookup_app_r, Nat.sub_diag by lia. }
  assert (Htail : filter
            (λ p, Is_true (from_option isEthernetCard false ((pre ++ device :: l) !! p)))
            (seq (S (length pre)) (length l)) = adaptersFrom (S (length pre)) l).
  { specialize (IH (pre ++ [device])).
    rewrite <- app_assoc, length_app, Nat.add_1_r in IH. exact IH. }
  rewrite Htail.
  destruct (decide _) as [Hd|Hd]; rewrite Hhead in Hd; destruct device; simpl in Hd; done.
Qed.

Lemma Select_networkAdapters store :
  Select store isEthernetCard (VirtualDeviceList store) = networkAdapters store.
Proof. apply (Select_adaptersFrom store []). Qed.

(** One iteration of the loop. *)
Lemma rangeDevices_cons c n device devices index store spec configSpecs :
  rangeDevices c n (device :: devices) index store spec configSpecs =
  if Nat.ltb index (length n) then
    match n !! index with
    | None => (store, spec, Some (Panic "index out of range"))
    | Some ni =>
      match network_FromID c (network_id ni) with
      | Err err => (store, spec, Some (Propagated err))
      | Ok net =>
        match EthernetCardBackingInfo c net with
        | Err err => (store, spec, Some (Propagated err))
        | Ok backing =>
          match store !! device with
          | Some (EthernetDevice model card) =>
            match ResourceAllocation card with
            | None =>
              (<[device := EthernetDevice model (set_Backing (Some backing) card)]> store,
               spec, Some (Panic "nil pointer dereference"))
            | Some _ =>
              rangeDevices c n devices (S index)
                (<[device := EthernetDevice model (rewrittenAdapter ni backing card)]> store)
                (InstantCloneSpecUpd.Location
                   (set_DeviceChange (configSpecs ++ [editOf device])) spec)
                (configSpecs ++ [editOf device])
            end
          | _ => (store, spec, Some (Panic "interface conversion"))
          end
        end
      end
    end
  else
    rangeDevices c n devices (S index) store
      (InstantCloneSpecUpd.Location (set_DeviceChange configSpecs) spec) configSpecs.
Proof.
  cbn [rangeDevices]. destruct (Nat.ltb index (length n)); [| reflexivity].
  destruct (n !! index) as [ni|]; [| reflexivity].
  destruct (network_FromID c (network_id ni)) as [net|]; [| reflexivity].
  destruct (EthernetCardBackingInfo c net) as [backing|]; [| reflexivity].
  destruct (store !! device) as [[model [k b a m [[r [sh lv] l]|]]|kind key]|];
    [| reflexivity..].
  unfold rewrittenAdapter, declaredAllocation. simpl.
  destruct (String.eqb (bandwidth_share_level ni) SharesLevelCustom),
    (use_static_mac ni); reflexivity.
Qed.

Lemma adapters_tail store device devices model card :
  adapters store (device :: devices) →
  adapters (<[device := EthernetDevice model card]> store) devices.
Proof.
  intros [Hnd Heth]. apply NoDup_cons in Hnd as [Hfresh Hnd]. split; [done |].
  intros p Hp. rewrite list_lookup_insert_ne by (intros ->; done).
  apply Heth. by right.
Qed.

Lemma adapters_rest store device devices :
  adapters store (device :: devices) → adapters store devices.
Proof.
  intros [Hnd Heth]. apply NoDup_cons in Hnd as [_ Hnd].
  split; [done | intros p Hp; apply Heth; by right].
Qed.

(** A run of the loop without error: the device changes are the edits of
    the paired adapters, in order, and the store holds the pairing. *)
Lemma rangeDevices_success c n devices :
  ∀ index store spec configSpecs store' spec',
    adapters store devices →
    DeviceChange (InstantCloneSpec.Location spec) = configSpecs →
    rangeDevices c n devices index store spec configSpecs = (store', spec', None) →
    spec' = InstantCloneSpecUpd.Location
              (set_DeviceChange
                 (configSpecs ++ (editOf <$> take (length n - index) devices))) spec ∧
    pairedFrom c n index devices store store'.
Proof.
  induction devices as [|device devices IH];
    intros index store spec configSpecs store' spec' Had Hdc Hrun.
  - simpl in Hrun. injection Hrun as <- <-. split.
    + rewrite take_nil, app_nil_r, <- Hdc. by rewrite Location_DeviceChange_same.
    + split; [intros j p ni Hj; done | done].
  - rewrite rangeDevices_cons in Hrun.
    destruct (Nat.ltb_spec index (length n)) as [Hlt|Hge].
    + destruct (n !! index) as [ni|] eqn:Hni; [| done].
      destruct (network_FromID c (network_id ni)) as [net|] eqn:Hnet; [| done].
      destruct (EthernetCardBackingInfo c net) as [backing|] eqn:Hback; [| done].
      destruct (proj2 Had device) as (model & card & Hdev); [by left |].
      rewrite Hdev in Hrun.
      destruct (ResourceAllocation card) as [allocation|] eqn:Hra; [| done].
      pose proof (proj1 Had) as Hnd. apply NoDup_cons in Hnd as [Hfresh Hnd].
      apply IH in Hrun as [-> [Hpaired Hrest]];
        [| by eapply adapters_tail | by destruct spec as [? [] ?] ].
      unfold pairedFrom.
      replace (length n - index) with (S (length n - S index)) by lia.
      split; [| split].
      * rewrite Location_DeviceChange_twice, <- app_assoc. reflexivity.
      * intros [|j] p ni' Hj Hn.
        -- injection Hj as <-. rewrite Nat.add_0_r, Hni in Hn. injection Hn as <-.
           exists model, card, net, backing.
           split; [done |]. split; [by rewrite Hra |]. split; [done |]. split; [done |].
           rewrite Hrest by (intros Hin%subseteq_take; done).
           apply list_lookup_insert_eq. by eapply lookup_lt_Some.
        -- simpl in Hj. replace (index + S j) with (S index + j) in Hn by lia.
           destruct (Hpaired j p ni' Hj Hn)
             as (m' & c' & net' & b' & Hp & ? & ? & ? & ?).
           rewrite list_lookup_insert_ne in Hp
             by (intros ->; apply Hfresh; by eapply list_elem_of_lookup_2).
           eauto 10.
      * intros p Hp. cbn [take] in Hp. rewrite not_elem_of_cons in Hp.
        destruct Hp as [Hne Hp]. rewrite (Hrest p Hp).
        by apply list_lookup_insert_ne.
    + apply IH in Hrun as [-> [Hpaired Hrest]];
        [| by eapply adapters_rest | by destruct spec as [? [] ?] ].
      unfold pairedFrom.
      replace (length n - index) with 0 by lia.
      replace (length n - S index) with 0 in * by lia.
      split; [| split].
      * rewrite Location_DeviceChange_twice. reflexivity.
      * intros j p ni' Hj Hn. apply lookup_lt_Some in Hn. lia.
      * intros p _. apply Hrest. rewrite take_0. apply not_elem_of_nil.
Qed.

(** A run of the loop that does not reach its end stops at a paired
    adapter: the declarations before it resolve and their adapters are
    edited; and either the network or the backing of its declaration
    does not resolve, which is the error returned, or they resolve and
    the adapter has no allocation, which is a nil pointer dereference
    after the backing is written. *)
Lemma rangeDevices_failure c n devices :
  ∀ index store spec configSpecs store' spec' err,
    adapters store devices →
    DeviceChange (InstantCloneSpec.Location spec) = configSpecs →
    rangeDevices c n devices index store spec configSpecs = (store', spec', Some err) →
    ∃ k ni,
      k < length devices ∧ n !! (index + k) = Some ni ∧
      (∀ j nj, j < k → n !! (index + j) = Some nj → resolves c nj) ∧
      DeviceChange (InstantCloneSpec.Location spec') =
        configSpecs ++ (editOf <$> take k devices) ∧
      ((∃ cause,
          err = Propagated cause ∧
          (network_FromID c (network_id ni) = Err cause ∨
           ∃ net, network_FromID c (network_id ni) = Ok net ∧
                  EthernetCardBackingInfo c net = Err cause) ∧
          (∀ p, p ∉ take k devices → store' !! p = store !! p)) ∨
       (err = Panic "nil pointer dereference" ∧ resolves c ni ∧
        (∃ p model card,
           devices !! k = Some p ∧ store !! p = Some (EthernetDevice model card) ∧
           ResourceAllocation card = None) ∧
        (∀ p, p ∉ take (S k) devices → store' !! p = store !! p))).
Proof.
  induction devices as [|device devices IH];
    intros index store spec configSpecs store' spec' err Had Hdc Hrun; [done |].
  rewrite rangeDevices_cons in Hrun.
  destruct (Nat.ltb_spec index (length n)) as [Hlt|Hge].
  - destruct (n !! index) as [ni|] eqn:Hni; [| apply lookup_ge_None in Hni; lia].
    destruct (network_FromID c (network_id ni)) as [net|cause] eqn:Hnet.
    + destruct (EthernetCardBackingInfo c net) as [backing|cause] eqn:Hback.
      * destruct (proj2 Had device) as (model & card & Hdev); [by left |].
        rewrite Hdev in Hrun.
        pose proof (proj1 Had) as Hnd. apply NoDup_cons in Hnd as [Hfresh Hnd].
        destruct (ResourceAllocation card) as [allocation|] eqn:Hra.
        -- apply IH in Hrun as (k & nk & Hk & Hnk & Hbefore & Hch & Hend);
             [| by eapply adapters_tail | by destruct spec as [? [] ?] ].
           exists (S k), nk. split; [simpl; lia |].
           split; [by replace (index + S k) with (S index + k) by lia |].
           split; [| split].
           ++ intros [|j] nj Hj Hnj.
              ** rewrite Nat.add_0_r, Hni in Hnj. injection Hnj as <-. by exists net, backing.
              ** apply (Hbefore j nj); [lia |].
                 by replace (S index + j) with (index + S j) by lia.
           ++ rewrite Hch, <- app_assoc. reflexivity.
           ++ destruct Hend as [(cause & -> & Hfail & Hst) |
                                (-> & Hres & (p & m' & c' & Hp & Hsp & Hnone) & Hst)].
              ** left. exists cause. split; [done |]. split; [done |].
                 intros p Hp. cbn [take] in Hp. rewrite not_elem_of_cons in Hp.
                 destruct Hp as [Hne Hp]. rewrite (Hst p Hp).
                 by apply list_lookup_insert_ne.
              ** right. split; [done |]. split; [done |]. split.
                 --- exists p, m', c'. split; [done |]. split; [| done].
                     rewrite list_lookup_insert_ne in Hsp; [done |].
                     intros ->. apply Hfresh. by eapply list_elem_of_lookup_2.
                 --- intros q Hq. cbn [take] in Hq. rewrite not_elem_of_cons in Hq.
                     destruct Hq as [Hne Hq]. rewrite (Hst q Hq).
                     by apply list_lookup_insert_ne.
        -- injection Hrun as <- <- <-. exists 0, ni.
           split; [simpl; lia |]. split; [by rewrite Nat.add_0_r |].
           split; [intros j nj Hj; lia |].
           split; [by rewrite take_0, app_nil_r |].
           right. split; [done |]. split; [by exists net, backing |]. split.
           ++ by exists device, model, card.
           ++ intros p Hp. cbn [take] in Hp. rewrite not_elem_of_cons in Hp.
              destruct Hp as [Hne _]. by apply list_lookup_insert_ne.
      * injection Hrun as <- <- <-. exists 0, ni.
        split; [simpl; lia |]. split; [by rewrite Nat.add_0_r |].
        split; [intros j nj Hj; lia |].
        split; [by rewrite take_0, app_nil_r |].
        left. exists cause. split; [done |]. split; [right; eauto | done].
    + injection Hrun as <- <- <-. exists 0, ni.
      split; [simpl; lia |]. split; [by rewrite Nat.add_0_r |].
      split; [intros j nj Hj; lia |].
      split; [by rewrite take_0, app_nil_r |].
      left. exists cause. split; [done |]. split; [by left | done].
  - apply IH in Hrun as (k & nk & Hk & Hnk & _);
      [| by eapply adapters_rest | by destruct spec as [? [] ?] ].
    apply lookup_lt_Some in Hnk. lia.
Qed.

(** The loop runs to its end when the network of every paired
    declaration resolves to a backing and every paired adapter has an
    allocation. *)
Lemma rangeDevices_succeeds c n devices :
  ∀ index store spec configSpecs,
    adapters store devices →
    (∀ j ni, j < length devices → n !! (index + j) = Some ni → resolves c ni) →
    (∀ j p model card, devices !! j = Some p → index + j < length n →
       store !! p = Some (EthernetDevice model card) →
       is_Some (ResourceAllocation card)) →
    ∃ store' spec',
      rangeDevices c n devices index store spec configSpecs = (store', spec', None).
Proof.
  induction devices as [|device devices IH];
    intros index store spec configSpecs Had Hnet Hall; [by eexists _, _ |].
  rewrite rangeDevices_cons.
  assert (Hshift : ∀ j ni, j < length devices → n !! (S index + j) = Some ni →
            resolves c ni).
  { intros j ni Hj Hn. apply (Hnet (S j) ni); [simpl; lia |].
    by replace (index + S j) with (S index + j) by lia. }
  destruct (Nat.ltb_spec index (length n)) as [Hlt|Hge].
  - destruct (lookup_lt_is_Some_2 n index Hlt) as [ni Hni]. rewrite Hni.
    destruct (Hnet 0 ni) as (net & backing & -> & ->);
      [simpl; lia | by rewrite Nat.add_0_r |].
    destruct (proj2 Had device) as (model & card & Hdev); [by left |].
    rewrite Hdev.
    destruct (Hall 0 device model card) as [allocation Hra]; [done | lia | done |].
    rewrite Hra.
    pose proof (proj1 Had) as Hnd. apply NoDup_cons in Hnd as [Hfresh Hnd].
    apply IH; [by eapply adapters_tail | done |].
    intros j p m' c' Hj Hlen Hp.
    rewrite list_lookup_insert_ne in Hp
      by (intros ->; apply Hfresh; by eapply list_elem_of_lookup_2).
    apply (Hall (S j) p m' c'); [done | lia | done].
  - apply IH; [by eapply adapters_rest | done |].
    intros j p m' c' Hj Hlen Hp. lia.
Qed.

(** The loop of lines 278-280 appends one entry per visited pair. *)
Lemma range_extra_config (visited : list (string * string)) :
  ∀ spec,
    foldl (λ spec '(k, v),
             InstantCloneSpecUpd.Config
               (InstantCloneSpec.Config spec ++ [{| OptionKey := k; OptionVal := v |}])
               spec)
          spec visited =
    InstantCloneSpecUpd.Config
      (InstantCloneSpec.Config spec ++ (optionValueOf <$> visited)) spec.
Proof.
  induction visited as [|[k v] visited IH]; intros [nm loc cfg]; simpl.
  - unfold InstantCloneSpecUpd.Config. simpl. by rewrite app_nil_r.
  - rewrite IH. unfold InstantCloneSpecUpd.Config. simpl.
    by rewrite <- app_assoc.
Qed.


Lemma int32_range x : (- 2 ^ 31 ≤ int32 x < 2 ^ 31)%Z.
Proof.
  unfold int32. pose proof (Z.mod_pos_bound (x + 2 ^ 31) (2 ^ 32)). lia.
Qed.

Lemma int32_congruent x : ((int32 x - x) mod 2 ^ 32 = 0)%Z.
Proof.
  unfold int32.
  replace ((x + 2 ^ 31) mod 2 ^ 32 - 2 ^ 31 - x)%Z
    with (- ((x + 2 ^ 31) / 2 ^ 32) * 2 ^ 32)%Z.
  - apply Z_mod_mult.
  - pose proof (Z.div_mod (x + 2 ^ 31) (2 ^ 32)). lia.
Qed.

Lemma int32_small x : (- 2 ^ 31 ≤ x < 2 ^ 31)%Z → int32 x = x.
Proof. intros H. unfold int32. rewrite Z.mod_small by lia. lia. Qed.

Lemma rewrittenAdapter_twice ni backing card :
  rewrittenAdapter ni backing (rewrittenAdapter ni backing card) =
  rewrittenAdapter ni backing card.
Proof.
  unfold rewrittenAdapter, declaredAllocation. simpl.
  destruct (ResourceAllocation card); simpl; [| done].
  by destruct (String.eqb (bandwidth_share_level ni) SharesLevelCustom).
Qed.

Lemma sameDevice_refl device : sameDevice device device.
Proof. by destruct device. Qed.

(** The pairing leaves every device in its place, as the same kind of
    device under the same key. *)
Lemma pairedFrom_sameDevice c n devices store store' :
  adapters store devices →
  pairedFrom c n 0 devices store store' →
  Forall2 sameDevice store store'.
Proof.
  intros Had [Hpaired Hrest]. apply Forall2_lookup. intros p.
  destruct (decide (p ∈ take (length n - 0) devices)) as [Hin|Hout].
  - apply list_elem_of_lookup in Hin as [j Hj].
    pose proof (lookup_lt_Some _ _ _ Hj) as Hlt. rewrite length_take in Hlt.
    rewrite lookup_take_lt in Hj by lia.
    destruct (lookup_lt_is_Some_2 n j) as [ni Hni]; [lia |].
    destruct (Hpaired j p ni Hj Hni)
      as (model & card & net & backing & -> & _ & _ & _ & ->).
    by constructor.
  - rewrite (Hrest p Hout). destruct (store !! p); constructor. apply sameDevice_refl.
Qed.

Lemma Select_sameDevice store store' :
  Forall2 sameDevice store store' →
  Select store' isEthernetCard (VirtualDeviceList store') =
  Select store isEthernetCard (VirtualDeviceList store).
Proof.
  intros Hsame. unfold Select, VirtualDeviceList.
  rewrite <- (Forall2_length _ _ _ Hsame).
  apply list_filter_iff. intros p.
  pose proof (proj1 (Forall2_lookup _ _ _) Hsame p) as Hp.
  destruct Hp as [[] [] Hp|]; simpl; try done; by destruct Hp.
Qed.

(** The pairing determines the devices it leaves. *)
Lemma pairedFrom_unique c n devices store store1 store2 :
  pairedFrom c n 0 devices store store1 →
  pairedFrom c n 0 devices store store2 →
  store1 = store2.
Proof.
  intros [Hp1 Hr1] [Hp2 Hr2]. apply list_eq. intros p.
  destruct (decide (p ∈ take (length n - 0) devices)) as [Hin|Hout];
    [| by rewrite Hr1, Hr2].
  apply list_elem_of_lookup in Hin as [j Hj].
  pose proof (lookup_lt_Some _ _ _ Hj) as Hlt. rewrite length_take in Hlt.
  rewrite lookup_take_lt in Hj by lia.
  destruct (lookup_lt_is_Some_2 n j) as [ni Hni]; [lia |].
  destruct (Hp1 j p ni Hj Hni) as (m1 & c1 & n1 & b1 & Hs1 & _ & Hn1 & Hb1 & ->).
  destruct (Hp2 j p ni Hj Hni) as (m2 & c2 & n2 & b2 & Hs2 & _ & Hn2 & Hb2 & ->).
  congruence.
Qed.

Section InstantCloneSpecProperties.

Variable DiskCloneRelocateOperation :
  ResourceData → Client → list BaseVirtualDevice →
  result (list VirtualMachineRelocateSpecDiskLocator).

Local Abbreviation ExpandInstant :=
  (ExpandVirtualMachineInstantCloneSpec DiskCloneRelocateOperation).
Local Abbreviation completeInstant :=
  (completeInstantCloneSpec DiskCloneRelocateOperation).

(** The successful runs of the builder are the complete specs. *)
Lemma ExpandVirtualMachineInstantCloneSpec_success order d c fo spec vm store' :
  ExpandInstant order d c fo = (spec, Some vm, None, store') ↔
  completeInstant order d c fo spec vm store'.
Proof.
  unfold ExpandVirtualMachineInstantCloneSpec, completeInstantCloneSpec,
    resolvedDatastore, GetOk.
  split.
  - intros H.
    destruct (String.eqb (datastore_id d) EmptyString) eqn:Hds; simpl in H;
      [| destruct (datastore_FromID c (datastore_id d)) as [ds|] eqn:Hdsr; [| done]].
    all: rewrite range_extra_config in H.
    all: destruct (virtualmachine_FromUUID c (source_uuid d)) as [vm'|] eqn:Hvm; [| done].
    all: destruct (virtualmachine_Properties c vm') as [vprops|] eqn:Hp; [| done].
    all: destruct (mo.Config vprops) as [config|] eqn:Hconfig; [| done].
    all: destruct (rangeDevices _ _ _ _ _ _ _) as [[store1 spec1] [err|]] eqn:Hloop; [done |].
    all: apply rangeDevices_success in Hloop as [-> Hpaired];
      [| apply Select_adapters | reflexivity].
    all: destruct (resourcepool_FromID c (resource_pool_id d)) as [pool|] eqn:Hpool; [| done].
    all: destruct (DiskCloneRelocateOperation d c store1) as [relocators|] eqn:Hrel; [| done].
    all: injection H as <- <- <-.
    all: rewrite Nat.sub_0_r.
    all: rewrite Select_networkAdapters in *.
    all: eexists _, vprops, config, pool, relocators.
    all: split; [reflexivity |]; split; [by eauto |].
    all: split; [done |]; split; [done |]; split; [done |].
    all: split; [exact Hpaired |]; by split.
  - intros (ds & vprops & config & pool & relocators &
            -> & Hds & Hvm & Hp & Hconfig & Hpaired & Hpool & Hrel).
    destruct (String.eqb (datastore_id d) EmptyString); simpl;
      [subst ds | destruct Hds as (h & -> & ->)].
    all: rewrite range_extra_config, Hvm, Hp, Hconfig.
    all: rewrite Select_networkAdapters.
    all: pose proof (Select_adapters (Device config)) as Had.
    all: rewrite Select_networkAdapters in Had.
    all: match goal with
         | |- context [rangeDevices ?cl ?n ?devs 0 ?st ?sp ?cs] =>
           destruct (rangeDevices_succeeds cl n devs 0 st sp cs)
             as (store1 & spec1 & Hrun); [exact Had | |  |]
         end.
    1, 4: intros j ni Hj Hn;
      destruct (lookup_lt_is_Some_2 _ j Hj) as [p Hpj];
      destruct (proj1 Hpaired j p ni Hpj Hn) as (? & ? & net & backing & _ & _ & ? & ? & _);
      by exists net, backing.
    1, 3: intros j p model card Hj Hlen Hsp;
      destruct (lookup_lt_is_Some_2 (network_interface d) j) as [ni Hn]; [lia |];
      destruct (proj1 Hpaired j p ni Hj Hn) as (m' & c' & ? & ? & Hsp' & Hra & _);
      rewrite Hsp in Hsp'; by injection Hsp' as <- <-.
    all: rewrite Hrun.
    all: apply rangeDevices_success in Hrun as [-> Hpaired1]; [| exact Had | reflexivity].
    all: rewrite (pairedFrom_unique _ _ _ _ _ _ Hpaired1 Hpaired).
    all: rewrite Hpool, Hrel, Nat.sub_0_r.
    all: reflexivity.
Qed.

(** The builder hands out the source only with a nil error; an error it
    returns is one of [instantCloneError]; and it ends in a panic only
    on a source that lacks its configuration or the allocation of a
    paired adapter. *)
Lemma ExpandVirtualMachineInstantCloneSpec_outcome order d c fo :
  (∃ spec vm store', ExpandInstant order d c fo = (spec, Some vm, None, store')) ∨
  (∃ spec err store', ExpandInstant order d c fo = (spec, None, Some err, store') ∧
                      instantCloneError err) ∨
  (∃ spec store',
     ExpandInstant order d c fo =
       (spec, None, Some (Panic "nil pointer dereference"), store') ∧
     instantSourceIncomplete d c).
Proof.
  unfold ExpandVirtualMachineInstantCloneSpec, GetOk.
  destruct (String.eqb (datastore_id d) EmptyString); simpl;
    [| destruct (datastore_FromID c (datastore_id d)) as [ds|];
       [| right; left; by eexists _, _, _ ] ].
  all: rewrite range_extra_config.
  all: destruct (virtualmachine_FromUUID c (source_uuid d)) as [vm'|] eqn:Hvm;
    [| right; left; by eexists _, _, _ ].
  all: destruct (virtualmachine_Properties c vm') as [vprops|] eqn:Hp;
    [| right; left; by eexists _, _, _ ].
  all: destruct (mo.Config vprops) as [config|] eqn:Hconfig;
    [| right; right; eexists _, _; split; [done |]; exists vm', vprops; by auto ].
  all: destruct (rangeDevices _ _ _ _ _ _ _) as [[store1 spec1] [err|]] eqn:Hloop;
    [ apply rangeDevices_failure in Hloop
        as (k & ni & Hk & Hni & _ & _ &
            [(cause & -> & _) | (-> & _ & (p & model & card & Hkp & Hsp & Hra) & _)]);
        [ right; left; by eexists _, _, _
        | right; right; eexists _, _; split; [done |];
          exists vm', vprops; split; [done |]; split; [done |]; right;
          exists config, k, p, model, card;
          rewrite <- Select_networkAdapters;
          apply lookup_lt_Some in Hni; by repeat split
        | apply Select_adapters | reflexivity ] |].
  all: destruct (resourcepool_FromID c (resource_pool_id d)) as [pool|];
    [| right; left; by eexists _, _, _ ].
  all: destruct (DiskCloneRelocateOperation d c store1) as [relocators|];
    [ left; by eexists _, _, _ | right; left; by eexists _, _, _ ].
Qed.

End InstantCloneSpecProperties.

(** ** The claims on the two builders *)

Section BuilderProperties.

Variable DiskCloneRelocateOperation :
  ResourceData → Client → list BaseVirtualDevice →
  result (list VirtualMachineRelocateSpecDiskLocator).

Local Abbreviation Expand := (ExpandVirtualMachineCloneSpec DiskCloneRelocateOperation).
Local Abbreviation ExpandInstant :=
  (ExpandVirtualMachineInstantCloneSpec DiskCloneRelocateOperation).

(** C6. For a source that resolves, and a reconciler whose answer does
    not change with the flag: a clone spec built without the linked-clone
    flag has no snapshot and no disk-move type; the builder succeeds with
    the flag exactly when the source is eligible and the builder succeeds
    without the flag, and the spec it returns is then the one built
    without the flag with two fields set, the snapshot to the current
    snapshot of the source and the disk-move type to
    createNewChildDiskBacking. *)
Theorem linked_clone_sets_two_fields d c vm vprops :
  virtualmachine_FromUUID c (template_uuid d) = Ok vm →
  virtualmachine_Properties c vm = Ok vprops →
  (∀ config, mo.Config vprops = Some config →
     DiskCloneRelocateOperation (with_linked_clone true d) c (Device config) =
       DiskCloneRelocateOperation (with_linked_clone false d) c (Device config)) →
  (∀ spec0, Expand (with_linked_clone false d) c = (spec0, Some vm, None) →
     CloneSpec.Snapshot spec0 = None ∧
     DiskMoveType (CloneSpec.Location spec0) = EmptyString) ∧
  (∀ spec1, Expand (with_linked_clone true d) c = (spec1, Some vm, None) ↔
     ∃ info current spec0,
       mo.Snapshot vprops = Some info ∧ linkedCloneEligible info ∧
       CurrentSnapshot info = Some current ∧
       Expand (with_linked_clone false d) c = (spec0, Some vm, None) ∧
       spec1 = CloneSpecUpd.Location
                 (set_DiskMoveType
                    VirtualMachineRelocateDiskMoveOptionsCreateNewChildDiskBacking)
                 (CloneSpecUpd.Snapshot (Some current) spec0)).
Proof.
  intros Hvm Hprops Hrel. split.
  - intros spec0 H0. apply ExpandVirtualMachineCloneSpec_success in H0.
    destruct H0 as (ds & snapshot & mv & vprops' & config & pool & hs & relocators &
                    -> & _ & _ & _ & Hl & _).
    unfold linkedCloneFields in Hl. destruct d; simpl in Hl. by destruct Hl as [-> ->].
  - intros spec1. rewrite ExpandVirtualMachineCloneSpec_success. split.
    + intros (ds & snapshot & mv & vprops' & config & pool & hs & relocators &
              -> & Hds & Hvm' & Hp' & Hl & Hpool & Hh & Hconfig & Hr).
      assert (vprops' = vprops) as ->.
      { destruct d; simpl in *. congruence. }
      unfold linkedCloneFields in Hl.
      assert (Hl' : ∃ info, mo.Snapshot vprops = Some info ∧ linkedCloneEligible info ∧
                snapshot = CurrentSnapshot info ∧
                mv = VirtualMachineRelocateDiskMoveOptionsCreateNewChildDiskBacking)
        by (destruct d; exact Hl).
      destruct Hl' as (info & Hinfo & Helig & -> & ->).
      pose proof Helig as (_ & root & current & _ & _ & Hcur & _).
      exists info, current, (CloneSpec.Build
                      (RelocateSpec None ds EmptyString (Some (Reference pool)) hs
                         relocators []) None).
      split; [done |]. split; [done |]. split; [done |].
      split; [| by rewrite Hcur].
      apply ExpandVirtualMachineCloneSpec_success.
      exists ds, None, EmptyString, vprops, config, pool, hs, relocators.
      rewrite <- (Hrel config Hconfig). destruct d; simpl in *. by repeat split.
    + intros (info & current & spec0 & Hinfo & Helig & Hcur & H0 & ->).
      apply ExpandVirtualMachineCloneSpec_success in H0.
      destruct H0 as (ds & snapshot & mv & vprops' & config & pool & hs & relocators &
                      -> & Hds & Hvm' & Hp' & Hl & Hpool & Hh & Hconfig & Hr).
      assert (vprops' = vprops) as ->.
      { destruct d; simpl in *. congruence. }
      exists ds, (Some current),
        VirtualMachineRelocateDiskMoveOptionsCreateNewChildDiskBacking,
        vprops, config, pool, hs, relocators.
      rewrite (Hrel config Hconfig). destruct d; simpl in *. repeat split; try done.
      unfold linkedCloneFields. simpl. eauto.
Qed.

(** C7. A run of either builder that returns has no partial success:
    it returns a complete spec, the handle of the source and no error,
    or an error and no handle.  But not every run returns: the
    traditional builder ends in a nil pointer dereference on a source
    whose fetched properties have no configuration or, for a linked
    clone, whose snapshot tree has no current snapshot, and the instant
    clone builder on a source without configuration or with a paired
    adapter without allocation; these are the only panics.  The three
    inputs at the end are such runs, for every device reconciler and
    every order of the extra configuration. *)
Theorem expand_has_no_partial_success :
  (∀ d c,
     (∃ spec vm, Expand d c = (spec, Some vm, None) ∧
                 completeCloneSpec DiskCloneRelocateOperation d c spec vm) ∨
     (∃ spec err, Expand d c = (spec, None, Some err) ∧ ¬ isPanic err) ∨
     (∃ spec msg, Expand d c = (spec, None, Some (Panic msg)) ∧
                  cloneSourceIncomplete d c)) ∧
  (∀ order d c fo,
     (∃ spec vm store', ExpandInstant order d c fo = (spec, Some vm, None, store') ∧
        completeInstantCloneSpec DiskCloneRelocateOperation order d c fo spec vm store') ∨
     (∃ spec err store', ExpandInstant order d c fo = (spec, None, Some err, store') ∧
                         ¬ isPanic err) ∨
     (∃ spec msg store',
        ExpandInstant order d c fo = (spec, None, Some (Panic msg), store') ∧
        instantSourceIncomplete d c)) ∧
  (Expand (cloneData "host-20" false []) (clientOf sourceWithoutConfig)).2 =
    Some (Panic "nil pointer dereference") ∧
  (Expand (cloneData "host-20" true []) (clientOf sourceWithoutCurrent)).2 =
    Some (Panic "nil pointer dereference") ∧
  (∀ order,
     (ExpandInstant order (cloneData EmptyString false [defaultInterface])
        (clientOf sourceWithBareAdapter) folder3).1.2 =
       Some (Panic "nil pointer dereference")).
Proof.
  split; [| split; [| split; [| split]]].
  - intros d c.
    destruct (ExpandVirtualMachineCloneSpec_outcome DiskCloneRelocateOperation d c)
      as [(spec & vm & H) | (spec & err & H & Hpanic)].
    + left. exists spec, vm. split; [done |].
      by apply ExpandVirtualMachineCloneSpec_success.
    + right. destruct err as [| | | | | | | | | | | | |msg];
        try (left; exists spec; eexists; split; [exact H | by intros [? [=]]]).
      right. exists spec, msg. split; [done |]. apply Hpanic. by exists msg.
  - intros order d c fo.
    destruct (ExpandVirtualMachineInstantCloneSpec_outcome
                DiskCloneRelocateOperation order d c fo)
      as [(spec & vm & store' & H) |
          [(spec & err & store' & H & Herr) | (spec & store' & H & Hinc)]].
    + left. exists spec, vm, store'. split; [done |].
      by apply ExpandVirtualMachineInstantCloneSpec_success.
    + right; left. exists spec, err, store'. split; [done |]. intros [msg ->]. done.
    + right; right. by exists spec, "nil pointer dereference", store'.
  - reflexivity.
  - reflexivity.
  - intros order. reflexivity.
Qed.

(** C8. The traditional builder succeeds with a declared host only if the
    host is among the hosts of the pool's compute resource, and once the
    source, the snapshots, the pool and the host are resolved it fails
    with the host-not-in-pool error for a host that is not; the instant
    clone builder leaves the host of the request unset and has neither
    that error nor a host lookup error. *)
Theorem host_in_pool_check_is_asymmetric :
  (∀ d c spec vm,
     Expand d c = (spec, Some vm, None) → host_system_id d ≠ EmptyString →
     ∃ pool hs,
       resourcepool_FromID c (resource_pool_id d) = Ok pool ∧
       hostsystem_FromID c (host_system_id d) = Ok hs ∧
       Value (Reference hs) ∈ computeresource_Hosts c pool ∧
       Host (CloneSpec.Location spec) = Some (Reference hs)) ∧
  (∀ d c ds vm vprops pool hs,
     resolvedDatastore c d ds →
     virtualmachine_FromUUID c (template_uuid d) = Ok vm →
     virtualmachine_Properties c vm = Ok vprops →
     (linked_clone d = true → validateCloneSnapshots vprops = None) →
     resourcepool_FromID c (resource_pool_id d) = Ok pool →
     host_system_id d ≠ EmptyString →
     hostsystem_FromID c (host_system_id d) = Ok hs →
     Value (Reference hs) ∉ computeresource_Hosts c pool →
     ∃ spec, Expand d c =
       (spec, None,
        Some (ErrHostNotInPool (Value (Reference hs)) (Value (Reference pool))))) ∧
  (∀ order d c fo spec vm err store',
     ExpandInstant order d c fo = (spec, vm, err, store') →
     (∀ host pool, err ≠ Some (ErrHostNotInPool host pool)) ∧
     (∀ hsID cause, err ≠ Some (ErrLocateHost hsID cause)) ∧
     (err = None → Host (InstantCloneSpec.Location spec) = None)).
Proof.
  split; [| split].
  - intros d c spec vm H Hhost.
    apply ExpandVirtualMachineCloneSpec_success in H.
    destruct H as (ds & snapshot & mv & vprops & config & pool & hs & relocators &
                   -> & _ & _ & _ & _ & Hpool & Hh & _).
    unfold resolvedHost in Hh.
    destruct (String.eqb_spec (host_system_id d) EmptyString) as [|_]; [done |].
    destruct Hh as (h & Hh & -> & Hin). by exists pool, h.
  - intros d c ds vm vprops pool hs Hds Hvm Hp Hsnap Hpool Hhost Hhs Hout.
    unfold ExpandVirtualMachineCloneSpec, resourcepool_ValidateHost, GetOk.
    unfold resolvedDatastore in Hds.
    destruct (String.eqb (datastore_id d) EmptyString); simpl;
      [| destruct Hds as (h & -> & _)].
    all: rewrite Hvm, Hp.
    all: destruct (linked_clone d);
      [ rewrite Hsnap by done;
        destruct (proj1 (validateCloneSnapshots_nil vprops) (Hsnap eq_refl))
          as (info & -> & _ & root & current & _ & _ & -> & _) |].
    all: rewrite Hpool.
    all: destruct (String.eqb_spec (host_system_id d) EmptyString) as [|_]; [done |].
    all: simpl; rewrite Hhs, bool_decide_eq_false_2 by done.
    all: by eexists.
  - intros order d c fo spec vm err store' H.
    destruct (ExpandVirtualMachineInstantCloneSpec_outcome
                DiskCloneRelocateOperation order d c fo)
      as [(spec' & vm' & st & H') |
          [(spec' & err' & st & H' & Herr) | (spec' & st & H' & _)]];
      rewrite H in H'; injection H' as -> -> -> ->.
    + split; [done |]. split; [done |]. intros _.
      apply ExpandVirtualMachineInstantCloneSpec_success in H.
      by destruct H as (ds & vprops & config & pool & relocators & -> & _).
    + split; [| split; [| done]].
      * intros host pool [= ->]. done.
      * intros hsID cause [= ->]. done.
    + split; [done |]. split; done.
Qed.


(** C5. In a spec the instant clone builder returns, the adapter paired
    with a declaration is the one its device change points to; without
    the static-MAC flag its address-assignment mode and MAC address are
    empty, whatever they were on the source, and with the flag the mode
    is manual and the MAC address the declared one. *)
Theorem static_mac_is_hard_reset order d c fo spec vm store' vprops config i p ni :
  ExpandInstant order d c fo = (spec, Some vm, None, store') →
  virtualmachine_Properties c vm = Ok vprops →
  mo.Config vprops = Some config →
  Select (Device config) isEthernetCard (VirtualDeviceList (Device config)) !! i = Some p →
  network_interface d !! i = Some ni →
  DeviceChange (InstantCloneSpec.Location spec) !! i = Some (editOf p) ∧
  ∃ model card,
    store' !! p = Some (EthernetDevice model card) ∧
    (use_static_mac ni = false →
       AddressType card = EmptyString ∧ MacAddress card = EmptyString) ∧
    (use_static_mac ni = true →
       AddressType card = VirtualEthernetCardMacTypeManual ∧
       MacAddress card = mac_address ni).
Proof.
  intros H Hprops Hconfig Hi Hn.
  apply ExpandVirtualMachineInstantCloneSpec_success in H.
  destruct H as (ds & vprops' & config' & pool & relocators &
                 -> & _ & _ & Hp' & Hc' & Hpaired & _).
  rewrite Hprops in Hp'. injection Hp' as <-.
  rewrite Hconfig in Hc'. injection Hc' as <-. simpl.
  rewrite <- Select_networkAdapters in *. split.
  - rewrite list_lookup_fmap, lookup_take_lt by (by eapply lookup_lt_Some).
    by rewrite Hi.
  - destruct (proj1 Hpaired i p ni Hi Hn)
      as (model & card & net & backing & _ & _ & _ & _ & ->).
    eexists _, _. split; [done |]. unfold rewrittenAdapter. simpl.
    split; intros ->; done.
Qed.

(** C9, as the code has it. In a spec the instant clone builder returns,
    the extra-configuration entries are the pairs of the declared mapping
    in the order in which this run visited the map: every pair of the
    mapping is there, no key twice, and the entries of another run on the
    same mapping are a permutation of them. *)
Theorem extra_config_is_a_permutation order d c fo spec vm store' :
  ExpandInstant order d c fo = (spec, Some vm, None, store') →
  InstantCloneSpec.Config spec = optionValueOf <$> order (extra_config d) ∧
  NoDup (OptionKey <$> InstantCloneSpec.Config spec) ∧
  (∀ k v, extra_config d !! k = Some v ↔
          {| OptionKey := k; OptionVal := v |} ∈ InstantCloneSpec.Config spec) ∧
  (∀ order' spec' vm' store'',
     ExpandInstant order' d c fo = (spec', Some vm', None, store'') →
     InstantCloneSpec.Config spec' ≡ₚ InstantCloneSpec.Config spec).
Proof.
  intros H.
  apply ExpandVirtualMachineInstantCloneSpec_success in H.
  destruct H as (ds & vprops & config & pool & relocators & -> & _). simpl.
  split; [done |]. split; [| split].
  - rewrite <- list_fmap_compose.
    change (OptionKey ∘ optionValueOf) with (@fst string string).
    rewrite (range_visits order). apply NoDup_fst_map_to_list.
  - intros k v. rewrite <- elem_of_map_to_list, <- (range_visits order). split.
    + intros Hin. by apply (list_elem_of_fmap_2 optionValueOf) in Hin.
    + intros Hin. apply list_elem_of_fmap in Hin as ([k' v'] & [= -> ->] & Hin). done.
  - intros order' spec' vm' store'' H'.
    apply ExpandVirtualMachineInstantCloneSpec_success in H'.
    destruct H' as (ds' & vprops' & config' & pool' & relocators' & -> & _). simpl.
    by rewrite (range_visits order), (range_visits order').
Qed.

End BuilderProperties.

(** ** The claims at the inputs of the examples *)


(** The second adapter of the source has a manual MAC address; paired
    with a declaration without the static-MAC flag, it has none. *)
Lemma static_mac_is_hard_reset_witness :
  ∃ model card,
    (ExpandVirtualMachineInstantCloneSpec relocateNothing ascending
       (cloneData "host-99" false [staticInterface; defaultInterface])
       labClient folder3).2 !! 3 = Some (EthernetDevice model card) ∧
    AddressType card = EmptyString ∧ MacAddress card = EmptyString.
Proof.
  pose (r := ExpandVirtualMachineInstantCloneSpec relocateNothing ascending
               (cloneData "host-99" false [staticInterface; defaultInterface])
               labClient folder3).
  assert (H : r = (r.1.1.1, Some sourceVM, None, r.2)) by (vm_compute; reflexivity).
  destruct (static_mac_is_hard_reset relocateNothing ascending
              (cloneData "host-99" false [staticInterface; defaultInterface])
              labClient folder3 r.1.1.1 sourceVM r.2 sourceProps sourceConfig
              1 3 defaultInterface H eq_refl eq_refl eq_refl eq_refl)
    as (_ & model & card & Hcard & Hreset & _).
  exists model, card. split; [exact Hcard | exact (Hreset eq_refl)].
Defined.

(** The linked clone of the source on a host of the pool. *)
Lemma linked_clone_sets_two_fields_witness :
  ExpandVirtualMachineCloneSpec relocateNothing (cloneData "host-20" true []) labClient =
    (CloneSpec.Build
       (RelocateSpec None (Some (Reference datastore5)) "createNewChildDiskBacking"
          (Some (Reference pool10)) (Some (Reference host20)) [] [])
       (Some snapshot101),
     Some sourceVM, None).
Proof.
  apply (linked_clone_sets_two_fields relocateNothing (cloneData "host-20" false [])
           labClient sourceVM sourceProps eq_refl eq_refl (λ _ _, eq_refl)).
  exists oneSnapshot, snapshot101,
    (CloneSpec.Build
       (RelocateSpec None (Some (Reference datastore5)) EmptyString
          (Some (Reference pool10)) (Some (Reference host20)) [] [])
       None).
  split; [reflexivity |]. split; [| split; [| split]; reflexivity].
  split; [reflexivity |]. exists (SnapshotTree snapshot101 []), snapshot101.
  repeat split; reflexivity.
Defined.

(** A host outside of the pool's compute resource: the traditional
    builder fails on it, the instant clone builder does not. *)
Lemma host_in_pool_check_is_asymmetric_witness :
  (∃ spec, ExpandVirtualMachineCloneSpec relocateNothing
             (cloneData "host-99" false []) labClient =
           (spec, None, Some (ErrHostNotInPool "host-99" "resgroup-10"))) ∧
  (ExpandVirtualMachineInstantCloneSpec relocateNothing ascending
     (cloneData "host-99" false []) labClient folder3).1.2 = None.
Proof.
  split; [| reflexivity].
  apply (proj1 (proj2 (host_in_pool_check_is_asymmetric relocateNothing))
           (cloneData "host-99" false []) labClient
           (Some (Reference datastore5)) sourceVM sourceProps pool10 host99).
  - exists datastore5. split; reflexivity.
  - reflexivity.
  - reflexivity.
  - discriminate.
  - reflexivity.
  - discriminate.
  - reflexivity.
  - simpl. rewrite !not_elem_of_cons.
    split; [discriminate |]. split; [discriminate | apply not_elem_of_nil].
Defined.

Lemma extra_config_is_a_permutation_witness :
  InstantCloneSpec.Config
    (ExpandVirtualMachineInstantCloneSpec relocateNothing descending
       (cloneData "host-99" false []) labClient folder3).1.1.1 ≡ₚ
  InstantCloneSpec.Config
    (ExpandVirtualMachineInstantCloneSpec relocateNothing ascending
       (cloneData "host-99" false []) labClient folder3).1.1.1.
Proof.
  pose (r := ExpandVirtualMachineInstantCloneSpec relocateNothing ascending
               (cloneData "host-99" false []) labClient folder3).
  pose (r' := ExpandVirtualMachineInstantCloneSpec relocateNothing descending
                (cloneData "host-99" false []) labClient folder3).
  assert (H : r = (r.1.1.1, Some sourceVM, None, r.2)) by (vm_compute; reflexivity).
  assert (H' : r' = (r'.1.1.1, Some sourceVM, None, r'.2)) by (vm_compute; reflexivity).
  destruct (extra_config_is_a_permutation relocateNothing ascending
              (cloneData "host-99" false []) labClient folder3 r.1.1.1 sourceVM r.2 H)
    as (_ & _ & _ & Hperm).
  exact (Hperm descending r'.1.1.1 sourceVM r'.2 H').
Defined.

(** C9, as stated, fails: two runs on the same mapping, both successful,
    with the entries in different orders. *)
Lemma extra_config_order_varies :
  (ExpandVirtualMachineInstantCloneSpec relocateNothing ascending
     (cloneData "host-99" false []) labClient folder3).1.2 = None ∧
  (ExpandVirtualMachineInstantCloneSpec relocateNothing descending
     (cloneData "host-99" false []) labClient folder3).1.2 = None ∧
  InstantCloneSpec.Config
    (ExpandVirtualMachineInstantCloneSpec relocateNothing ascending
       (cloneData "host-99" false []) labClient folder3).1.1.1 =
    [ {| OptionKey := "guestinfo.zone"; OptionVal := "b" |};
      {| OptionKey := "guestinfo.role"; OptionVal := "web" |} ] ∧
  InstantCloneSpec.Config
    (ExpandVirtualMachineInstantCloneSpec relocateNothing descending
       (cloneData "host-99" false []) labClient folder3).1.1.1 =
    [ {| OptionKey := "guestinfo.role"; OptionVal := "web" |};
      {| OptionKey := "guestinfo.zone"; OptionVal := "b" |} ].
Proof. vm_compute. repeat split; reflexivity. Qed.

(** * Further properties *)

(** ** Snapshots *)

Lemma snapshotsOf_positive t : 1 ≤ snapshotsOf t.
Proof. destruct t. simpl. lia. Qed.

(** X1. A source that passes [validateCloneSnapshots] has one snapshot in
    its whole tree.  A source with one snapshot in its whole tree passes
    when that snapshot is the current one; with another current snapshot
    it fails with the error of the current snapshot, which quotes the
    UUID of its configuration; and without a current snapshot, or without
    a configuration to quote, the check ends in a nil pointer
    dereference. *)
Theorem eligible_source_has_a_single_snapshot props info :
  mo.Snapshot props = Some info →
  (validateCloneSnapshots props = None → snapshotCount info = 1) ∧
  (snapshotCount info = 1 →
   ∃ root, RootSnapshotList info = [root] ∧ ChildSnapshotList root = [] ∧
     match CurrentSnapshot info with
     | None => validateCloneSnapshots props = Some (Panic "nil pointer dereference")
     | Some current =>
       if String.eqb (Value current) (Value (Snapshot root)) then
         validateCloneSnapshots props = None
       else
         match mo.Config props with
         | Some config =>
           validateCloneSnapshots props = Some (ErrCurrentSnapshotMismatch (Uuid config))
         | None => validateCloneSnapshots props = Some (Panic "nil pointer dereference")
         end
     end).
Proof.
  intros Hinfo. split.
  - intros Hok.
    apply validateCloneSnapshots_nil in Hok
      as (info' & Hinfo' & Hlen & root & current & Hroot & Hch & _).
    rewrite Hinfo in Hinfo'. injection Hinfo' as <-.
    unfold snapshotCount. destruct (RootSnapshotList info) as [|r [|? ?]]; try done.
    injection Hroot as ->. destruct root as [ref children]. simpl in *. by subst.
  - unfold snapshotCount, validateCloneSnapshots, withUuid. rewrite Hinfo.
    destruct (RootSnapshotList info) as [|[ref children] [|second rest]]; simpl.
    + done.
    + intros Hone. destruct children as [|child children]; simpl in *.
      * exists (SnapshotTree ref []). split; [done |]. split; [done |]. simpl.
        destruct (CurrentSnapshot info) as [current|]; [| done].
        destruct (String.eqb _ _); simpl; [done |]. by destruct (mo.Config props).
      * pose proof (snapshotsOf_positive child). lia.
    + pose proof (snapshotsOf_positive second). lia.
Qed.

(** One snapshot and no current snapshot: the check panics. *)
Lemma eligible_source_has_a_single_snapshot_witness :
  ∃ root, RootSnapshotList noCurrentSnapshot = [root] ∧ ChildSnapshotList root = [] ∧
    validateCloneSnapshots sourceWithoutCurrent = Some (Panic "nil pointer dereference").
Proof.
  apply (eligible_source_has_a_single_snapshot sourceWithoutCurrent noCurrentSnapshot
           eq_refl).
  reflexivity.
Defined.

(** ** The validator, further *)

Section ValidatorFurther.

Variable DiskCloneValidateOperation :
  ResourceDiff → Client → list BaseVirtualDevice → bool → option string.
Variable ValidateCustomizationSpec : ResourceDiff → string → option string.

Local Abbreviation Validate :=
  (ValidateVirtualMachineClone DiskCloneValidateOperation ValidateCustomizationSpec).

(** The stage of lines 129-146 on its own. *)
Lemma customization_verdict d c :
  ∀ (tail : ResourceDiff * option error),
    tail =
      (if Nat.ltb 0 (length (diff_customize d)) then
         let '(poolID, ok) := GetOk (diff_resource_pool_id d) in
         if ok then
           match resourcepool_FromID c poolID with
           | Err err => (d, Some (ErrResourcePool poolID err))
           | Ok pool =>
             match resourcepool_OSFamily c pool (diff_guest_id d) with
             | Err err => (d, Some (ErrOSFamily (diff_guest_id d) err))
             | Ok family =>
               match ValidateCustomizationSpec d family with
               | Some err => (d, Some (Propagated err))
               | None => (d, None)
               end
             end
           end
         else (d, None)
       else (d, None)) →
    tail.1 = d ∧
    (tail.2 = None ↔ customizationPasses ValidateCustomizationSpec d c) ∧
    (∀ err, tail.2 = Some err → ¬ isSnapshotError err ∧ ¬ isInvalidGuestID (Some err)).
Proof.
  intros tail ->. unfold customizationPasses, GetOk.
  destruct (diff_customize d) as [|block blocks]; simpl.
  { split; [done |]. split; [by split; [left |] | done]. }
  destruct (String.eqb_spec (diff_resource_pool_id d) EmptyString) as [Hp|Hp]; simpl.
  { split; [done |]. split; [by split; [right; left |] | done]. }
  destruct (resourcepool_FromID c (diff_resource_pool_id d)) as [pool|cause] eqn:Hpool.
  - destruct (resourcepool_OSFamily c pool (diff_guest_id d)) as [family|cause] eqn:Hfam.
    + destruct (ValidateCustomizationSpec d family) as [cause|] eqn:Hcust; simpl.
      * split; [done |]. split.
        -- split; [done |]. intros [? | [? | (? & ? & ? & ? & ?)]]; congruence.
        -- intros err [= <-]. split; [by intros [] |]. by intros (? & ? & [=]).
      * split; [done |]. split; [| done]. split; [| done].
        intros _. right; right. eauto.
    + simpl. split; [done |]. split.
      * split; [done |]. intros [? | [? | (? & ? & ? & ? & ?)]]; congruence.
      * intros err [= <-]. split; [by intros [] |]. by intros (? & ? & [=]).
  - simpl. split; [done |]. split.
    + split; [done |]. intros [? | [? | (? & ? & ? & ? & ?)]]; congruence.
    + intros err [= <-]. split; [by intros [] |]. by intros (? & ? & [=]).
Qed.

Lemma withTransport_config vprops config d :
  mo.Config vprops = Some config →
  match VAppConfig config with
  | Some vconfig => SetNew_vapp_transport vconfig d
  | None => d
  end = withTransport vprops d.
Proof. intros H. unfold withTransport. by rewrite H. Qed.

(** X2. Validation passes exactly when: for a known source, the source
    resolves, its properties are fetched with a configuration, its guest
    ID is the declared one, it is eligible if a linked clone is asked
    for, the reconciler accepts the disks, and the customization checks
    pass on the diff that carries the transport types of the source; for
    a source not yet known, the customization checks pass. *)
Theorem validation_passes_exactly_when d c :
  (ValidateVirtualMachineClone DiskCloneValidateOperation ValidateCustomizationSpec
     d c).2 = None ↔
  if template_uuid_known d then
    ∃ vprops,
      sourceChecksPass DiskCloneValidateOperation d c vprops ∧
      customizationPasses ValidateCustomizationSpec (withTransport vprops d) c
  else customizationPasses ValidateCustomizationSpec d c.
Proof.
  unfold ValidateVirtualMachineClone. cbv zeta.
  destruct (template_uuid_known d);
    [| apply (customization_verdict d c _ eq_refl)].
  unfold sourceChecksPass.
  destruct (virtualmachine_FromUUID c (diff_template_uuid d)) as [vm|] eqn:Hvm;
    [| split; [done | intros (? & (? & ? & ? & _) & _); congruence]].
  destruct (virtualmachine_Properties c vm) as [vprops|] eqn:Hprops;
    [| split; [done | intros (? & (? & ? & ? & ? & _) & _); congruence]].
  destruct (mo.Config vprops) as [config|] eqn:Hconfig;
    [| split; [done | intros (? & (? & ? & ? & ? & ? & _) & _); congruence]].
  destruct (String.eqb_spec (GuestId config) (diff_guest_id d)) as [Hg|Hg];
    simpl; [| split; [done | intros (? & (? & ? & ? & ? & ? & ? & _) & _); congruence]].
  rewrite (withTransport_config vprops config d Hconfig).
  destruct (diff_linked_clone d) eqn:Hl.
  - destruct (validateCloneSnapshots vprops) as [err|] eqn:Hsnap.
    + split; [done |]. intros (vprops' & (vm' & config' & Hvm' & Hp' & _ & _ & Helig & _) & _).
      assert (vprops' = vprops) as -> by congruence.
      rewrite (proj2 (validateCloneSnapshots_nil vprops) (Helig eq_refl)) in Hsnap. done.
    + apply validateCloneSnapshots_nil in Hsnap.
      destruct (DiskCloneValidateOperation d c (Device config) true)
        as [err|] eqn:Hdisks.
      * split; [done |].
        intros (vprops' & (vm' & config' & Hvm' & Hp' & Hc' & _ & _ & Hd) & _).
        assert (vprops' = vprops) as -> by congruence. congruence.
      * rewrite (proj1 (proj2 (customization_verdict (withTransport vprops d) c _ eq_refl))).
        split.
        -- intros Hc. exists vprops. split; [| done]. exists vm, config. by repeat split.
        -- intros (vprops' & (vm' & config' & Hvm' & Hp' & _) & Hc).
           assert (vprops' = vprops) as -> by congruence. done.
  - destruct (DiskCloneValidateOperation d c (Device config) false)
      as [err|] eqn:Hdisks.
    + split; [done |].
      intros (vprops' & (vm' & config' & Hvm' & Hp' & Hc' & _ & _ & Hd) & _).
      assert (vprops' = vprops) as -> by congruence. congruence.
    + rewrite (proj1 (proj2 (customization_verdict (withTransport vprops d) c _ eq_refl))).
      split.
      * intros Hc. exists vprops. split; [| done]. exists vm, config. by repeat split.
      * intros (vprops' & (vm' & config' & Hvm' & Hp' & _) & Hc).
        assert (vprops' = vprops) as -> by congruence. done.
Qed.

(** X3. The validator writes nothing to the diff but the transport types
    of the source: they are written as soon as the checks on a known
    source have passed and the source has a vApp configuration, also when
    the customization checks then fail; in every other case the diff is
    returned as it was. *)
Theorem validation_writes_only_the_transport d c :
  let d' := (ValidateVirtualMachineClone DiskCloneValidateOperation
               ValidateCustomizationSpec d c).1 in
  (∀ vprops, template_uuid_known d = true →
             sourceChecksPass DiskCloneValidateOperation d c vprops →
             d' = withTransport vprops d) ∧
  (d' ≠ d →
   template_uuid_known d = true ∧
   ∃ vprops config vconfig,
     sourceChecksPass DiskCloneValidateOperation d c vprops ∧
     mo.Config vprops = Some config ∧
     VAppConfig config = Some vconfig ∧
     d' = SetNew_vapp_transport vconfig d).
Proof.
  unfold ValidateVirtualMachineClone. cbv zeta.
  destruct (template_uuid_known d);
    [| split; [done | rewrite (proj1 (customization_verdict d c _ eq_refl)); done]].
  unfold sourceChecksPass.
  destruct (virtualmachine_FromUUID c (diff_template_uuid d)) as [vm|] eqn:Hvm;
    [| split; [intros ? _ (? & ? & ? & _); congruence | done]].
  destruct (virtualmachine_Properties c vm) as [vprops|] eqn:Hprops;
    [| split; [intros ? _ (? & ? & ? & ? & _); congruence | done]].
  destruct (mo.Config vprops) as [config|] eqn:Hconfig;
    [| split; [intros ? _ (? & ? & ? & ? & ? & _); congruence | done]].
  destruct (String.eqb_spec (GuestId config) (diff_guest_id d)) as [Hg|Hg];
    cbn [negb]; [| split; [intros ? _ (? & ? & ? & ? & ? & ? & _); congruence | done]].
  destruct (if diff_linked_clone d then validateCloneSnapshots vprops else None)
    as [err|] eqn:Hsnap.
  { split; [| done]. intros vprops' _ (vm' & config' & Hvm' & Hp' & _ & _ & Helig & _).
    assert (vprops' = vprops) as -> by congruence.
    destruct (diff_linked_clone d); [| done].
    rewrite (proj2 (validateCloneSnapshots_nil vprops) (Helig eq_refl)) in Hsnap. done. }
  destruct (DiskCloneValidateOperation d c (Device config)
              (diff_linked_clone d)) as [err|] eqn:Hdisks.
  { split; [| done]. intros vprops' _ (vm' & config' & Hvm' & Hp' & Hc' & _ & _ & Hd).
    assert (vprops' = vprops) as -> by congruence. congruence. }
  rewrite (withTransport_config vprops config d Hconfig).
  rewrite (proj1 (customization_verdict (withTransport vprops d) c _ eq_refl)).
  split.
  - intros vprops' _ (vm' & config' & Hvm' & Hp' & _).
    assert (vprops' = vprops) as -> by congruence. done.
  - intros Hne. split; [done |]. unfold withTransport in *. rewrite Hconfig in *.
    simpl in *.
    destruct (VAppConfig config) as [vconfig|] eqn:Hv; [| done].
    exists vprops, config, vconfig. split; [| done]. exists vm, config.
    repeat split; try done.
    intros Hl. rewrite Hl in Hsnap. apply validateCloneSnapshots_nil in Hsnap. done.
Qed.

(** X4. The validator returns an error of the snapshot check only for a
    known source that resolves, whose guest ID is the declared one, and
    with the linked-clone flag; the error is the one of
    [validateCloneSnapshots] on the properties of the source. *)
Theorem snapshot_errors_need_the_linked_clone_flag d c err :
  (ValidateVirtualMachineClone DiskCloneValidateOperation ValidateCustomizationSpec
     d c).2 = Some err →
  isSnapshotError err →
  template_uuid_known d = true ∧ diff_linked_clone d = true ∧
  ∃ vm vprops config,
    virtualmachine_FromUUID c (diff_template_uuid d) = Ok vm ∧
    virtualmachine_Properties c vm = Ok vprops ∧
    mo.Config vprops = Some config ∧
    GuestId config = diff_guest_id d ∧
    validateCloneSnapshots vprops = Some err.
Proof.
  unfold ValidateVirtualMachineClone. cbv zeta. intros Herr Hsnaperr.
  destruct (template_uuid_known d);
    [| by apply (customization_verdict d c _ eq_refl) in Herr as [? _]].
  destruct (virtualmachine_FromUUID c (diff_template_uuid d)) as [vm|] eqn:Hvm;
    [| by injection Herr as <-].
  destruct (virtualmachine_Properties c vm) as [vprops|] eqn:Hprops;
    [| by injection Herr as <-].
  destruct (mo.Config vprops) as [config|] eqn:Hconfig;
    [| by injection Herr as <-].
  destruct (String.eqb_spec (GuestId config) (diff_guest_id d)) as [Hg|Hg];
    cbn [negb] in Herr; [| by injection Herr as <-].
  rewrite (withTransport_config vprops config d Hconfig) in Herr.
  destruct (diff_linked_clone d).
  - destruct (validateCloneSnapshots vprops) as [err'|] eqn:Hsnap.
    + injection Herr as <-. split; [done |]. split; [done |]. by exists vm, vprops, config.
    + destruct (DiskCloneValidateOperation _ _ _ _); [by injection Herr as <- |].
      by apply (customization_verdict (withTransport vprops d) c _ eq_refl) in Herr as [? _].
  - destruct (DiskCloneValidateOperation _ _ _ _); [by injection Herr as <- |].
    by apply (customization_verdict (withTransport vprops d) c _ eq_refl) in Herr as [? _].
Qed.

End ValidatorFurther.

(** ** The traditional builder, further *)

Section CloneFurther.

Variable DiskCloneValidateOperation :
  ResourceDiff → Client → list BaseVirtualDevice → bool → option string.
Variable DiskCloneRelocateOperation :
  ResourceData → Client → list BaseVirtualDevice →
  result (list VirtualMachineRelocateSpecDiskLocator).
Variable ValidateCustomizationSpec : ResourceDiff → string → option string.

(** X5. After a validation that passed on a known source, the builder
    run for the same source and linked-clone flag against the same
    answers of the management plane does not fail in its own snapshot
    check: no error of the builder is an error of
    [validateCloneSnapshots]. *)
Theorem validated_source_passes_the_second_snapshot_check d c rd spec vm err :
  template_uuid_known d = true →
  (ValidateVirtualMachineClone DiskCloneValidateOperation ValidateCustomizationSpec
     d c).2 = None →
  template_uuid rd = diff_template_uuid d →
  linked_clone rd = diff_linked_clone d →
  ExpandVirtualMachineCloneSpec DiskCloneRelocateOperation rd c = (spec, vm, Some err) →
  ¬ isSnapshotError err.
Proof.
  intros Hknown Hpass Huuid Hlinked Hrun.
  revert Hpass. unfold ValidateVirtualMachineClone. cbv zeta. rewrite Hknown.
  destruct (virtualmachine_FromUUID c (diff_template_uuid d)) as [vm'|] eqn:Hvm; [| done].
  destruct (virtualmachine_Properties c vm') as [vprops|] eqn:Hprops; [| done].
  destruct (mo.Config vprops) as [config|] eqn:Hconfig; [| done].
  destruct (negb _); [done |].
  destruct (if diff_linked_clone d then validateCloneSnapshots vprops else None)
    as [err'|] eqn:Hsnap; [done |].
  intros _. revert Hrun.
  unfold ExpandVirtualMachineCloneSpec, resourcepool_ValidateHost, GetOk.
  rewrite Huuid, Hlinked, Hvm, Hprops, Hconfig.
  destruct (String.eqb (datastore_id rd) EmptyString); simpl;
    [| destruct (datastore_FromID c (datastore_id rd)) as [ds|];
       [| by intros [= <- <- <-] []]].
  all: destruct (diff_linked_clone d);
    [ rewrite Hsnap;
      destruct (proj1 (validateCloneSnapshots_nil vprops) Hsnap)
        as (info & -> & _ & root & current & _ & _ & -> & _) |].
  all: destruct (resourcepool_FromID c (resource_pool_id rd)) as [pool|];
    [| by intros [= <- <- <-] []].
  all: destruct (String.eqb (host_system_id rd) EmptyString); simpl;
    [| destruct (hostsystem_FromID c (host_system_id rd)) as [hs|];
       [ destruct (bool_decide _); [| by intros [= <- <- <-] []]
       | by intros [= <- <- <-] []]].
  all: destruct (DiskCloneRelocateOperation rd c (Device config));
    [done | by intros [= <- <- <-] []].
Qed.

(** X6. In a spec the traditional builder returns, the optional fields
    are set exactly when they are declared: the datastore with a
    datastore ID, the host with a host ID, the snapshot and the disk-move
    type with the linked-clone flag.  The pool is always set, and the
    folder and the device changes never are. *)
Theorem clone_spec_fields_follow_the_declaration d c spec vm :
  ExpandVirtualMachineCloneSpec DiskCloneRelocateOperation d c = (spec, Some vm, None) →
  (Datastore (CloneSpec.Location spec) = None ↔ datastore_id d = EmptyString) ∧
  (Host (CloneSpec.Location spec) = None ↔ host_system_id d = EmptyString) ∧
  (CloneSpec.Snapshot spec = None ↔ linked_clone d = false) ∧
  (DiskMoveType (CloneSpec.Location spec) = EmptyString ↔ linked_clone d = false) ∧
  Pool (CloneSpec.Location spec) ≠ None ∧
  Folder (CloneSpec.Location spec) = None ∧
  DeviceChange (CloneSpec.Location spec) = [].
Proof.
  intros H. apply ExpandVirtualMachineCloneSpec_success in H.
  destruct H as (ds & snapshot & mv & vprops & config & pool & hs & relocators &
                 -> & Hds & _ & _ & Hl & _ & Hh & _).
  unfold resolvedDatastore in Hds. unfold resolvedHost in Hh.
  unfold linkedCloneFields in Hl. simpl.
  assert (Hl' : if linked_clone d
                then snapshot ≠ None ∧
                     mv = VirtualMachineRelocateDiskMoveOptionsCreateNewChildDiskBacking
                else snapshot = None ∧ mv = EmptyString).
  { destruct (linked_clone d); [| done].
    destruct Hl as (info & _ & (_ & root & current & _ & _ & Hcur & _) & -> & ->).
    by rewrite Hcur. }
  clear Hl.
  destruct (String.eqb_spec (datastore_id d) EmptyString) as [Hd|Hd];
    destruct (String.eqb_spec (host_system_id d) EmptyString) as [He|He];
    destruct (linked_clone d).
  all: repeat match goal with
         | H : ∃ _, _ |- _ => destruct H as [? H]
         | H : _ ∧ _ |- _ => destruct H as [? H]
         end; subst.
  all: repeat split; try done.
Qed.

End CloneFurther.

Lemma validated_source_passes_the_second_snapshot_check_witness :
  ¬ isSnapshotError (ErrHostNotInPool "host-99" "resgroup-10").
Proof.
  apply (validated_source_passes_the_second_snapshot_check
           acceptDisks relocateNothing acceptCustomization
           linuxDiff labClient (cloneData "host-99" true [])
           (ExpandVirtualMachineCloneSpec relocateNothing
              (cloneData "host-99" true []) labClient).1.1
           None (ErrHostNotInPool "host-99" "resgroup-10")
           eq_refl eq_refl eq_refl eq_refl eq_refl).
Defined.

Lemma clone_spec_fields_follow_the_declaration_witness :
  Host (CloneSpec.Location
          (ExpandVirtualMachineCloneSpec relocateNothing
             (cloneData EmptyString false []) labClient).1.1) = None.
Proof.
  destruct (clone_spec_fields_follow_the_declaration relocateNothing
              (cloneData EmptyString false []) labClient _ sourceVM eq_refl)
    as (_ & Hhost & _).
  apply Hhost. reflexivity.
Defined.

(** ** The instant clone builder, further *)

Section InstantFurther.

Variable DiskCloneRelocateOperation :
  ResourceData → Client → list BaseVirtualDevice →
  result (list VirtualMachineRelocateSpecDiskLocator).

Local Abbreviation ExpandInstant :=
  (ExpandVirtualMachineInstantCloneSpec DiskCloneRelocateOperation).

(** X7. The loop over the adapters runs to its end exactly when the
    network of every declaration that is paired with an adapter resolves
    to a backing and every adapter that is paired with a declaration has
    an allocation; declarations without an adapter are not looked up,
    adapters without a declaration are not dereferenced, and without
    declarations or without adapters the loop cannot fail. *)
Theorem pairing_succeeds_exactly_when c n store spec :
  let devices := Select store isEthernetCard (VirtualDeviceList store) in
  (∃ store' spec',
     rangeDevices c n devices 0 store spec
       (DeviceChange (InstantCloneSpec.Location spec)) = (store', spec', None)) ↔
  (∀ i ni, i < length devices → n !! i = Some ni → resolves c ni) ∧
  (∀ i p model card, devices !! i = Some p → i < length n →
     store !! p = Some (EthernetDevice model card) →
     is_Some (ResourceAllocation card)).
Proof.
  intros devices. split.
  - intros (store' & spec' & Hrun).
    apply rangeDevices_success in Hrun as [_ [Hpaired _]];
      [| apply Select_adapters | done].
    split.
    + intros i ni Hi Hn.
      destruct (lookup_lt_is_Some_2 devices i Hi) as [p Hp].
      destruct (Hpaired i p ni Hp Hn) as (? & ? & net & backing & _ & _ & ? & ? & _).
      by exists net, backing.
    + intros i p model card Hp Hi Hsp.
      destruct (lookup_lt_is_Some_2 n i Hi) as [ni Hn].
      destruct (Hpaired i p ni Hp Hn) as (m' & c' & _ & _ & Hsp' & Hra & _).
      rewrite Hsp in Hsp'. by injection Hsp' as <- <-.
  - intros [Hres Hall]. apply rangeDevices_succeeds; [apply Select_adapters | |].
    + intros j ni Hj Hn. by apply (Hres j ni).
    + intros j p model card Hj Hlen Hsp. by apply (Hall j p model card).
Qed.

(** X10. In a successful run of the instant clone builder the source has
    a configuration and its devices stay where they are: as many as before, each the same kind
    of device under the same key, every device that is no adapter
    unchanged, and the same adapters selected. *)
Theorem instant_clone_keeps_the_devices order d c fo spec vm store' vprops :
  ExpandInstant order d c fo = (spec, Some vm, None, store') →
  virtualmachine_Properties c vm = Ok vprops →
  ∃ config,
  mo.Config vprops = Some config ∧
  let store := Device config in
  length store' = length store ∧
  Forall2 sameDevice store store' ∧
  (∀ p kind key, store !! p = Some (OtherDevice kind key) →
                 store' !! p = Some (OtherDevice kind key)) ∧
  Select store' isEthernetCard (VirtualDeviceList store') =
    Select store isEthernetCard (VirtualDeviceList store).
Proof.
  intros H Hprops.
  apply ExpandVirtualMachineInstantCloneSpec_success in H.
  destruct H as (ds & vprops' & config & pool & relocators &
                 _ & _ & _ & Hp' & Hconfig & Hpaired & _).
  rewrite Hprops in Hp'. injection Hp' as <-.
  exists config. split; [done |]. simpl.
  rewrite <- Select_networkAdapters in Hpaired.
  pose proof (pairedFrom_sameDevice _ _ _ _ _ (Select_adapters _) Hpaired) as Hsame.
  split; [by rewrite (Forall2_length _ _ _ Hsame) |]. split; [done |].
  split; [| by apply Select_sameDevice].
  intros p kind key Hp.
  pose proof (proj1 (Forall2_lookup _ _ _) Hsame p) as Hsp. rewrite Hp in Hsp.
  inversion Hsp as [? dev' Hdev|]; subst.
  destruct dev' as [model card|kind' key']; [done |]. by destruct Hdev as [-> ->].
Qed.

(** X11. In a successful run of the instant clone builder the adapter
    paired with a declaration has an allocation with the declared share
    level; its share count is the one of the source unless the level is
    custom, and under the custom level it is the declared count cut to 32
    bits: within the signed 32-bit range, congruent to the declared count
    modulo 2^32, and the declared count itself when that is in the
    range. *)
Theorem share_count_only_under_the_custom_level
    order d c fo spec vm store' vprops config i p ni :
  ExpandInstant order d c fo = (spec, Some vm, None, store') →
  virtualmachine_Properties c vm = Ok vprops →
  mo.Config vprops = Some config →
  Select (Device config) isEthernetCard (VirtualDeviceList (Device config)) !! i = Some p →
  network_interface d !! i = Some ni →
  ∃ model card card' allocation allocation',
    Device config !! p = Some (EthernetDevice model card) ∧
    store' !! p = Some (EthernetDevice model card') ∧
    ResourceAllocation card = Some allocation ∧
    ResourceAllocation card' = Some allocation' ∧
    Level (Share allocation') = bandwidth_share_level ni ∧
    (bandwidth_share_level ni ≠ SharesLevelCustom →
     Shares (Share allocation') = Shares (Share allocation)) ∧
    (bandwidth_share_level ni = SharesLevelCustom →
     let shares := Shares (Share allocation') in
     (- 2 ^ 31 ≤ shares < 2 ^ 31)%Z ∧
     ((shares - bandwidth_share_count ni) mod 2 ^ 32 = 0)%Z ∧
     ((- 2 ^ 31 ≤ bandwidth_share_count ni < 2 ^ 31)%Z →
      shares = bandwidth_share_count ni)).
Proof.
  intros H Hprops Hconfig Hi Hn.
  apply ExpandVirtualMachineInstantCloneSpec_success in H.
  destruct H as (ds & vprops' & config' & pool & relocators &
                 _ & _ & _ & Hp' & Hc' & Hpaired & _).
  rewrite Hprops in Hp'. injection Hp' as <-.
  rewrite Hconfig in Hc'. injection Hc' as <-.
  rewrite <- Select_networkAdapters in Hpaired.
  destruct (proj1 Hpaired i p ni Hi Hn)
    as (model & card & net & backing & Hs & [allocation Hra] & _ & _ & Hs').
  exists model, card, (rewrittenAdapter ni backing card), allocation,
    (declaredAllocation ni allocation).
  split; [done |]. split; [done |]. split; [done |].
  split; [unfold rewrittenAdapter; simpl; by rewrite Hra |].
  unfold declaredAllocation. simpl. split; [done |].
  destruct (String.eqb_spec (bandwidth_share_level ni) SharesLevelCustom) as [Hc|Hc].
  - split; [done |]. intros _. split; [apply int32_range |].
    split; [apply int32_congruent | apply int32_small].
  - split; [done | done].
Qed.


(** X9. Pairing is idempotent: the loop run again on the devices it has
    left, with the same declarations and the same answers of the
    management plane, leaves them as they are and gives the same device
    changes. *)
Theorem pairing_is_idempotent c n store spec store' spec' :
  rangeDevices c n (Select store isEthernetCard (VirtualDeviceList store)) 0 store spec
    (DeviceChange (InstantCloneSpec.Location spec)) = (store', spec', None) →
  rangeDevices c n (Select store' isEthernetCard (VirtualDeviceList store')) 0 store' spec
    (DeviceChange (InstantCloneSpec.Location spec)) = (store', spec', None).
Proof.
  intros Hrun.
  apply rangeDevices_success in Hrun as [Hspec Hpaired]; [| apply Select_adapters | done].
  pose proof (pairedFrom_sameDevice _ _ _ _ _ (Select_adapters _) Hpaired) as Hsame.
  pose proof (Select_adapters store') as Had'.
  rewrite (Select_sameDevice _ _ Hsame) in *.
  set (devices := Select store isEthernetCard (VirtualDeviceList store)) in *.
  destruct (rangeDevices_succeeds c n devices 0 store' spec
              (DeviceChange (InstantCloneSpec.Location spec)) Had')
    as (store'' & spec'' & Hrun').
  { intros j ni Hj Hn.
    destruct (lookup_lt_is_Some_2 devices j Hj) as [p Hp].
    destruct (proj1 Hpaired j p ni Hp Hn) as (? & ? & net & backing & _ & _ & ? & ? & _).
    by exists net, backing. }
  { intros j p model card Hj Hlen Hsp.
    destruct (lookup_lt_is_Some_2 n j) as [ni Hn]; [lia |].
    destruct (proj1 Hpaired j p ni Hj Hn)
      as (m0 & c0 & net & backing & _ & [allocation Hra] & _ & _ & Hsp').
    rewrite Hsp in Hsp'. injection Hsp' as -> ->.
    unfold rewrittenAdapter. simpl. rewrite Hra. by eexists. }
  rewrite Hrun'.
  apply rangeDevices_success in Hrun' as [Hspec' Hpaired']; [| done | done].
  rewrite Hspec, Hspec'. f_equal. f_equal.
  apply list_eq. intros p.
  destruct (decide (p ∈ take (length n - 0) devices)) as [Hin|Hout].
  - apply list_elem_of_lookup in Hin as [j Hj].
    pose proof (lookup_lt_Some _ _ _ Hj) as Hlt. rewrite length_take in Hlt.
    rewrite lookup_take_lt in Hj by lia.
    destruct (lookup_lt_is_Some_2 n j) as [ni Hni]; [lia |].
    destruct (proj1 Hpaired j p ni Hj Hni)
      as (model & card & net & backing & _ & _ & Hnet & Hback & Hp').
    destruct (proj1 Hpaired' j p ni Hj Hni)
      as (model2 & card2 & net2 & backing2 & Hp2 & _ & Hnet2 & Hback2 & Hp'').
    rewrite Hp' in Hp2. injection Hp2 as <- <-.
    rewrite Hnet in Hnet2. injection Hnet2 as <-.
    rewrite Hback in Hback2. injection Hback2 as <-.
    by rewrite Hp'', Hp', rewrittenAdapter_twice.
  - by apply (proj2 Hpaired').
Qed.

(** X16. The instant clone builder returns a spec without error exactly
    when every step of it succeeds: the datastore if one is declared,
    the source and its properties with a configuration, for every
    declaration paired with a network adapter of the hardware list the
    network, the backing and the allocation of the adapter, the resource
    pool, and the reconciler on the devices after the pairing; the spec
    is then the one these steps determine. *)
Theorem instant_clone_succeeds_exactly_when order d c fo spec vm store' :
  ExpandVirtualMachineInstantCloneSpec DiskCloneRelocateOperation order d c fo =
    (spec, Some vm, None, store') ↔
  completeInstantCloneSpec DiskCloneRelocateOperation order d c fo spec vm store'.
Proof. apply ExpandVirtualMachineInstantCloneSpec_success. Qed.

End InstantFurther.

(** ** The virtual machine data source *)

Lemma extends_elem st st' x : extends st st' → x ∈ Written st → x ∈ Written st'.
Proof. intros [_ [k ->]] Hx. apply elem_of_app. by left. Qed.

Lemma extends_Id st st' id : extends st st' → Id st = id → Id st' = id.
Proof. intros [-> _]. done. Qed.

Lemma extends_prefix st st' l :
  extends st st' → l `prefix_of` Written st → l `prefix_of` Written st'.
Proof. intros [_ Hp] Hl. by etrans. Qed.

(** [d.Set] keeps the id and what is stored, and stores the value it
    accepts. *)
Lemma Set_extends client key value st : extends st (Set_ client key value st).1.
Proof.
  unfold Set_, extends. destruct (refusal client key value); simpl; [done |].
  split; [done |]. by apply prefix_app_r.
Qed.

Lemma Set_stored client key value st :
  refusal client key value = None → (key, value) ∈ Written (Set_ client key value st).1.
Proof.
  intros H. unfold Set_. rewrite H. simpl. apply elem_of_app. right.
  by apply list_elem_of_singleton.
Qed.

Lemma append_extends st writes :
  extends st {| Id := Id st; Written := Written st ++ writes |}.
Proof. split; [done |]. by apply prefix_app_r. Qed.

(** One call of [d.Set] in the run [H], named and described. *)
Ltac name_Set H :=
  match type of H with
  | context [(Set_ ?c ?k ?v ?s).1] =>
    is_var s;
    let st := fresh "st" in
    pose proof (Set_extends c k v s);
    pose proof (Set_stored c k v s);
    set (st := (Set_ c k v s).1) in *; clearbody st
  end.

(** What is known of a state, carried to the state that extends it. *)
Ltac carry :=
  repeat match goal with
    | E : extends ?a ?b, M : _ ∈ Written ?a |- _ => apply (extends_elem _ _ _ E) in M
    | E : extends ?a ?b, M : Id ?a = _ |- _ => apply (extends_Id _ _ _ E) in M
    | E : extends ?a ?b, M : _ `prefix_of` Written ?a |- _ =>
      apply (extends_prefix _ _ _ E) in M
    end.

(** The read, once the machine is found with a configuration and a UUID:
    the id, the thirteen properties, the three lists, the two
    allocations. *)
Lemma dataSourceVSphereVirtualMachineRead_found d client st st' err :
  dataSourceVSphereVirtualMachineRead d client st = (st', err) →
  (∃ e, err = Some e ∧ isLookupError e ∧ st' = st) ∨
  (∃ dc vm props config,
     virtualmachine_FromPath client (ds_name d) dc = Ok vm ∧
     virtualmachine_FetchProperties client vm = Ok props ∧
     FetchedConfig props = Some config ∧
     Uuid (BaseConfig config) ≠ EmptyString ∧
     Id st' = Uuid (BaseConfig config) ∧
     Written st `prefix_of` Written st' ∧
     ("guest_id", VString (GuestId (BaseConfig config))) ∈ Written st' ∧
     match err with
     | Some e => ¬ isLookupError e ∧ ¬ isSetError e
     | None =>
       ∃ disks nics networkInterfaces,
         ReadDiskAttrsForDataSource client (Device (BaseConfig config))
           (scsi_controller_scan_count d) = Ok disks ∧
         ReadNetworkInterfaceTypes client (Device (BaseConfig config)) = Ok nics ∧
         ReadNetworkInterfaces client (Device (BaseConfig config)) =
           Ok networkInterfaces ∧
         (SetError client "disks" (VBlocks disks) = None →
          ("disks", VBlocks disks) ∈ Written st') ∧
         (SetError client "network_interface_types" (VStrings nics) = None →
          ("network_interface_types", VStrings nics) ∈ Written st') ∧
         (SetError client "network_interfaces" (VBlocks networkInterfaces) = None →
          ("network_interfaces", VBlocks networkInterfaces) ∈ Written st') ∧
         (flattenVirtualMachineResourceAllocation client (CpuAllocation config) "cpu").2
           = None ∧
         (flattenVirtualMachineResourceAllocation client (MemoryAllocation config)
            "memory").2 = None
     end).
Proof.
  unfold dataSourceVSphereVirtualMachineRead, GetOk. intros H.
  cbv beta iota zeta in H.
  assert (Hdc : ∃ dc : result (option Common),
            (if negb (String.eqb (ds_datacenter_id d) EmptyString)
             then match datacenterFromID client (ds_datacenter_id d) with
                  | Err err => inl (ErrLocateDatacenter err)
                  | Ok dc => inr (Some dc)
                  end
             else inr None) =
            match dc with Ok dc => inr dc | Err e => inl (ErrLocateDatacenter e) end).
  { destruct (negb _); [| by exists (Ok None)].
    destruct (datacenterFromID client (ds_datacenter_id d)) as [dc|e];
      [by exists (Ok (Some dc)) | by exists (Err e)]. }
  destruct Hdc as [[dc|e] Hdc]; rewrite Hdc in H; clear Hdc; cbv beta iota in H;
    [| injection H as <- <-; left; by eexists].
  destruct (virtualmachine_FromPath client (ds_name d) dc) as [vm|e] eqn:Hvm;
    [| injection H as <- <-; left; by eexists].
  destruct (virtualmachine_FetchProperties client vm) as [props|e] eqn:Hprops;
    [| injection H as <- <-; left; by eexists].
  destruct (FetchedConfig props) as [config|] eqn:Hconfig;
    [| injection H as <- <-; left; by eexists].
  destruct (String.eqb_spec (Uuid (BaseConfig config)) EmptyString) as [Hu|Hu];
    [injection H as <- <-; left; by eexists |].
  right. exists dc, vm, props, config.
  split; [done |]. split; [done |]. split; [done |]. split; [done |].
  assert (Hid : Id (SetId (Uuid (BaseConfig config)) st) = Uuid (BaseConfig config))
    by done.
  assert (Hpre : Written st `prefix_of` Written (SetId (Uuid (BaseConfig config)) st))
    by done.
  set (st0 := SetId (Uuid (BaseConfig config)) st) in *. clearbody st0.
  do 13 name_Set H.
  assert (Hguest : ("guest_id", VString (GuestId (BaseConfig config))) ∈ Written st7)
    by auto.
  repeat match goal with
         | S : refusal _ _ _ = None → _ |- _ => clear S
         end.
  destruct (ReadDiskAttrsForDataSource client _ _) as [disks|e] eqn:Hdisks.
  2: { injection H as <- <-. carry. split; [done |]. split; [done |].
       split; [done | by split; intros []]. }
  destruct (ReadNetworkInterfaceTypes client _) as [nics|e] eqn:Hnics.
  2: { injection H as <- <-. carry. split; [done |]. split; [done |].
       split; [done | by split; intros []]. }
  destruct (ReadNetworkInterfaces client _) as [nis|e] eqn:Hnis.
  2: { injection H as <- <-. carry. split; [done |]. split; [done |].
       split; [done | by split; intros []]. }
  do 3 name_Set H.
  destruct (flattenVirtualMachineResourceAllocation client (CpuAllocation config) "cpu")
    as [cpu [e|]] eqn:Hcpu.
  { injection H as <- <-.
    pose proof (append_extends st16 cpu). carry.
    split; [done |]. split; [done |]. split; [done | by split; intros []]. }
  destruct (flattenVirtualMachineResourceAllocation client (MemoryAllocation config)
              "memory") as [mem [e|]] eqn:Hmem.
  { injection H as <- <-.
    pose proof (append_extends st16 cpu).
    pose proof (append_extends {| Id := Id st16; Written := Written st16 ++ cpu |} mem).
    carry.
    split; [done |]. split; [done |]. split; [done | by split; intros []]. }
  injection H as <- <-.
  pose proof (append_extends st16 cpu).
  pose proof (append_extends {| Id := Id st16; Written := Written st16 ++ cpu |} mem).
  carry. split; [done |]. split; [done |]. split; [done |].
  exists disks, nics, nis.
  split; [done |]. split; [done |]. split; [done |].
  split; [| split; [| split; [| by split]]]; intros Hacc.
  - match goal with
    | S : refusal _ _ (VBlocks disks) = None → _ |- _ => apply S in Hacc
    end.
    by carry.
  - match goal with
    | S : refusal _ _ (VStrings nics) = None → _ |- _ => apply S in Hacc
    end.
    by carry.
  - match goal with
    | S : refusal _ _ (VBlocks nis) = None → _ |- _ => apply S in Hacc
    end.
    by carry.
Qed.



(** X13. A read that fails in a lookup (the datacenter, the machine, its
    properties, a missing configuration or an empty UUID) leaves the
    resource data as it was: neither the id nor a property is written. *)
Theorem failed_lookup_writes_nothing d client st err :
  (dataSourceVSphereVirtualMachineRead d client st).2 = Some err →
  isLookupError err →
  (dataSourceVSphereVirtualMachineRead d client st).1 = st.
Proof.
  intros Herr Hlookup.
  destruct (dataSourceVSphereVirtualMachineRead d client st) as [st' err'] eqn:Hrun.
  simpl in *. subst err'.
  apply dataSourceVSphereVirtualMachineRead_found in Hrun
    as [(e & _ & _ & ->) | (? & ? & ? & ? & _ & _ & _ & _ & _ & _ & _ & Hnot & _)]; done.
Qed.


(** X15. A read that fails after the lookups, on the disks, the network
    interfaces or the allocations, has already written: the id is the
    UUID of the machine and the guest ID is among the properties set,
    although the read returns an error. *)
Theorem late_failure_leaves_the_id_set d client st st' err :
  dataSourceVSphereVirtualMachineRead d client st = (st', Some err) →
  ¬ isLookupError err →
  ∃ dc vm props config,
    virtualmachine_FromPath client (ds_name d) dc = Ok vm ∧
    virtualmachine_FetchProperties client vm = Ok props ∧
    FetchedConfig props = Some config ∧
    Id st' = Uuid (BaseConfig config) ∧ Id st' ≠ EmptyString ∧
    ("guest_id", VString (GuestId (BaseConfig config))) ∈ Written st'.
Proof.
  intros Hrun Hlate.
  apply dataSourceVSphereVirtualMachineRead_found in Hrun
    as [(e & [= <-] & Hlookup & _) |
        (dc & vm & props & config & Hvm & Hprops & Hconfig & Hu & Hid & _ & Hguest & _)];
    [done |].
  exists dc, vm, props, config. rewrite Hid. repeat split; done.
Qed.

Lemma failed_lookup_writes_nothing_witness :
  (dataSourceVSphereVirtualMachineRead missingQuery labDataSource freshState).1 =
    freshState.
Proof.
  apply (failed_lookup_writes_nothing missingQuery labDataSource freshState
           (ErrFetchVirtualMachine "virtual machine not found") eq_refl I).
Defined.


Lemma late_failure_leaves_the_id_set_witness :
  ∃ dc vm props config,
    virtualmachine_FromPath unreadableDisks (ds_name sourceQuery) dc = Ok vm ∧
    virtualmachine_FetchProperties unreadableDisks vm = Ok props ∧
    FetchedConfig props = Some config ∧
    Id (dataSourceVSphereVirtualMachineRead sourceQuery unreadableDisks freshState).1 =
      Uuid (BaseConfig config) ∧
    Id (dataSourceVSphereVirtualMachineRead sourceQuery unreadableDisks freshState).1 ≠
      EmptyString ∧
    ("guest_id", VString (GuestId (BaseConfig config))) ∈
      Written (dataSourceVSphereVirtualMachineRead sourceQuery unreadableDisks
                 freshState).1.
Proof.
  apply (late_failure_leaves_the_id_set sourceQuery unreadableDisks freshState
           (dataSourceVSphereVirtualMachineRead sourceQuery unreadableDisks freshState).1
           (ErrReadDiskSizes "no controller") eq_refl).
  intros [].
Defined.

(** ** The further properties at the inputs of the examples *)

(** A source whose snapshot has a child: the linked clone is refused
    with the error of the second clause. *)
Lemma snapshot_errors_need_the_linked_clone_flag_witness :
  template_uuid_known linuxDiff = true ∧ diff_linked_clone linuxDiff = true ∧
  ∃ vm vprops config,
    virtualmachine_FromUUID chainClient (diff_template_uuid linuxDiff) = Ok vm ∧
    virtualmachine_Properties chainClient vm = Ok vprops ∧
    mo.Config vprops = Some config ∧
    GuestId config = diff_guest_id linuxDiff ∧
    validateCloneSnapshots vprops =
      Some (ErrRootHasChildren "4207c5a8-0000-0000-0000-000000000001").
Proof.
  apply (snapshot_errors_need_the_linked_clone_flag acceptDisks acceptCustomization
           linuxDiff chainClient
           (ErrRootHasChildren "4207c5a8-0000-0000-0000-000000000001") eq_refl I).
Defined.


Lemma pairing_is_idempotent_witness :
  let once :=
    rangeDevices labClient [staticInterface; defaultInterface]
      (Select sourceDevices isEthernetCard (VirtualDeviceList sourceDevices))
      0 sourceDevices zeroInstantCloneSpec [] in
  rangeDevices labClient [staticInterface; defaultInterface]
    (Select once.1.1 isEthernetCard (VirtualDeviceList once.1.1))
    0 once.1.1 zeroInstantCloneSpec [] = (once.1.1, once.1.2, None).
Proof.
  intros once.
  apply (pairing_is_idempotent labClient [staticInterface; defaultInterface]
           sourceDevices zeroInstantCloneSpec once.1.1 once.1.2 eq_refl).
Defined.

Lemma instant_clone_keeps_the_devices_witness :
  length (ExpandVirtualMachineInstantCloneSpec relocateNothing ascending
            (cloneData "host-99" false [staticInterface; defaultInterface])
            labClient folder3).2 = 5.
Proof.
  pose (r := ExpandVirtualMachineInstantCloneSpec relocateNothing ascending
               (cloneData "host-99" false [staticInterface; defaultInterface])
               labClient folder3).
  assert (H : r = (r.1.1.1, Some sourceVM, None, r.2)) by (vm_compute; reflexivity).
  destruct (instant_clone_keeps_the_devices relocateNothing ascending
              (cloneData "host-99" false [staticInterface; defaultInterface])
              labClient folder3 r.1.1.1 sourceVM r.2 sourceProps H eq_refl)
    as (config & Hconfig & Hlen & _).
  injection Hconfig as <-. exact Hlen.
Defined.

(** A custom share count of 2^32 + 100 arrives as 100. *)
Lemma share_count_only_under_the_custom_level_witness :
  ∃ model card card' allocation',
    sourceDevices !! 1 = Some (EthernetDevice model card) ∧
    (ExpandVirtualMachineInstantCloneSpec relocateNothing ascending
       (cloneData "host-99" false [wideInterface]) labClient folder3).2 !! 1 =
      Some (EthernetDevice model card') ∧
    ResourceAllocation card' = Some allocation' ∧
    Level (Share allocation') = "custom" ∧
    ((Shares (Share allocation') - 4294967396) mod 2 ^ 32 = 0)%Z.
Proof.
  pose (r := ExpandVirtualMachineInstantCloneSpec relocateNothing ascending
               (cloneData "host-99" false [wideInterface]) labClient folder3).
  assert (H : r = (r.1.1.1, Some sourceVM, None, r.2)) by (vm_compute; reflexivity).
  destruct (share_count_only_under_the_custom_level relocateNothing ascending
              (cloneData "host-99" false [wideInterface]) labClient folder3
              r.1.1.1 sourceVM r.2 sourceProps sourceConfig 0 1 wideInterface
              H eq_refl eq_refl eq_refl eq_refl)
    as (model & card & card' & allocation & allocation' &
        Hs & Hs' & _ & Hra' & Hlevel & _ & Hcustom).
  destruct (Hcustom eq_refl) as (_ & Hmod & _).
  exists model, card, card', allocation'. split; [exact Hs |]. split; [exact Hs' |].
  split; [exact Hra' |]. split; [exact Hlevel | exact Hmod].
Defined.

Lemma instant_clone_succeeds_exactly_when_witness :
  completeInstantCloneSpec relocateNothing ascending
    (cloneData "host-99" false [defaultInterface]) labClient folder3
    (ExpandVirtualMachineInstantCloneSpec relocateNothing ascending
       (cloneData "host-99" false [defaultInterface]) labClient folder3).1.1.1
    sourceVM
    (ExpandVirtualMachineInstantCloneSpec relocateNothing ascending
       (cloneData "host-99" false [defaultInterface]) labClient folder3).2.
Proof.
  apply (instant_clone_succeeds_exactly_when relocateNothing ascending
           (cloneData "host-99" false [defaultInterface]) labClient folder3).
  vm_compute. reflexivity.
Defined.
